(** * Judge execution engine: a shallow embedding of the Python sources

    The development follows the repository file by file:

    - [Str]            Python [str] operations the handlers rely on
    - [CSharp], [Go]   terraform/containers/{csharp,go}/lambda_function.py
    - [JavaJudge]      packages/runtime/lambda-functions/java-judge.py
    - [PythonJudge]    packages/runtime/lambda-functions/python-judge.py
    - [Regex], [SqlJudge]  packages/runtime/lambda-functions/sql-judge.py
    - [Capsule]        terraform/lambda-functions/sql-fixed/sql-capsule-validator.py

    Definitions come first, the properties of the code after them. *)

From Stdlib Require Import ZArith Ascii String List Bool Lia.
From stdpp Require Import base decidable option list sorting strings pretty gmap.

Set Default Proof Using "Type".

(** ** Python strings

    A Python [str] is modelled as a [string]; each [ascii] stands for one
    code point below 256. *)
Module Str.

(** [s.startswith(p)] *)
Fixpoint startswith (p s : string) : bool :=
  match p, s with
  | EmptyString, _ => true
  | String _ _, EmptyString => false
  | String a p', String b s' => if decide (a = b) then startswith p' s' else false
  end.

(** [needle in hay] *)
Fixpoint contains (needle hay : string) : bool :=
  match hay with
  | EmptyString => startswith needle EmptyString
  | String _ hay' => startswith needle hay || contains needle hay'
  end.

(** [str.isspace] on one character: TAB..CR, FS..US, SPACE, NEL, NBSP. *)
Definition isspace (c : ascii) : bool :=
  let n := nat_of_ascii c in
  ((9 <=? n) && (n <=? 13)) || ((28 <=? n) && (n <=? 32))
  || (n =? 133) || (n =? 160).

(** Truth value of [s.strip()]: some character is not white space. *)
Fixpoint strip_nonempty (s : string) : bool :=
  match s with
  | EmptyString => false
  | String c s' => negb (isspace c) || strip_nonempty s'
  end.

Definition newline : ascii := ascii_of_nat 10.
Definition nl : string := String newline EmptyString.

(** [s.split('\n')], with the line being read carried in [cur]. *)
Fixpoint split_go (cur : string) (s : string) : list string :=
  match s with
  | EmptyString => [String.rev cur]
  | String c s' =>
      if decide (c = newline) then String.rev cur :: split_go EmptyString s'
      else split_go (String c cur) s'
  end.
Definition split_lines (s : string) : list string := split_go EmptyString s.

(** [sep.join(parts)] *)
Fixpoint join (sep : string) (parts : list string) : string :=
  match parts with
  | [] => EmptyString
  | [p] => p
  | p :: rest => p +:+ sep +:+ join sep rest
  end.

(** [' ' * n] *)
Fixpoint spaces (n : nat) : string :=
  match n with
  | O => EmptyString
  | S n' => String " "%char (spaces n')
  end.

(** [len(s)] as an integer *)
Definition len (s : string) : Z := Z.of_nat (String.length s).

(** [s.lstrip()], [s.rstrip()] and [s.strip()] *)
Fixpoint lstrip (s : string) : string :=
  match s with
  | EmptyString => EmptyString
  | String c s' => if isspace c then lstrip s' else s
  end.
Definition rstrip (s : string) : string := String.rev (lstrip (String.rev s)).
Definition strip (s : string) : string := rstrip (lstrip s).

(** [s.split()]: the maximal runs of characters that are not white space. *)
Fixpoint words_go (cur : option string) (s : string) : list string :=
  match s with
  | EmptyString => option_list (String.rev <$> cur)
  | String c s' =>
      if isspace c
      then option_list (String.rev <$> cur) ++ words_go None s'
      else words_go (Some (String c (default EmptyString cur))) s'
  end.
Definition words (s : string) : list string := words_go None s.

(** [s.split(c)[0]]: the text before the first [c]. *)
Fixpoint before (c : ascii) (s : string) : string :=
  match s with
  | EmptyString => EmptyString
  | String a s' => if decide (a = c) then EmptyString else String a (before c s')
  end.

(** [s.upper()] on the ASCII letters; other characters stay as they are. *)
Definition upper_char (c : ascii) : ascii :=
  let n := nat_of_ascii c in
  if (97 <=? n) && (n <=? 122) then ascii_of_nat (n - 32) else c.
Fixpoint upper (s : string) : string :=
  match s with
  | EmptyString => EmptyString
  | String c s' => String (upper_char c) (upper s')
  end.

(** The character [c] does not occur in [s]. *)
Fixpoint lacks (c : ascii) (s : string) : bool :=
  match s with
  | EmptyString => true
  | String a s' => negb (bool_decide (a = c)) && lacks c s'
  end.

End Str.

(** ** Python exceptions and results *)
Module Py.

(** The exception classes the handlers tell apart. [BaseOnly] stands for
    the classes that derive from [BaseException] but not from [Exception]
    ([SystemExit], [KeyboardInterrupt], [GeneratorExit]). *)
Inductive ExnClass :=
| TimeoutError          (* builtins.TimeoutError, raised by timeout_handler *)
| OSError               (* launch and file system failures *)
| TypeError
| OverflowError
| ReError               (* re.error *)
| DatabaseError         (* sqlite3.Error, psycopg2.Error and their subclasses *)
| OtherException (name : string)
| BaseOnly (name : string).

Record Exn := mkExn { exn_class : ExnClass; exn_msg : string }.

(** [isinstance(e, Exception)] *)
Definition is_Exception (e : Exn) : bool :=
  match exn_class e with BaseOnly _ => false | _ => true end.

(** [type(e).__name__] *)
Definition class_name (e : Exn) : string :=
  match exn_class e with
  | TimeoutError => "TimeoutError"
  | OSError => "OSError"
  | TypeError => "TypeError"
  | OverflowError => "OverflowError"
  | ReError => "error"
  | DatabaseError => "Error"
  | OtherException n => n
  | BaseOnly n => n
  end.

(** A call either returns or raises. *)
Inductive Result (A : Type) :=
| Ret (a : A)
| Raise (e : Exn).
Arguments Ret {A} a.
Arguments Raise {A} e.

(** [str(n)] for an integer *)
Definition str_of_int (n : Z) : string := pretty n.

End Py.

(** ** Child processes and [subprocess.run]

    Time is counted in whole seconds from the moment the child is spawned.
    A [Program] says what the spawned command does when left alone; the
    operating system side is reduced to the calls [subprocess.run] makes:
    it forks the child, and when the timeout expires it kills that child
    (one pid, [Popen.kill]) and waits for it before raising
    [TimeoutExpired]. With [capture_output=True] the call reads the child's
    stdout and stderr to their end, so it completes only once the child has
    exited and every process that still holds the write end of those pipes
    is gone. *)
Module Proc.

(** A process forked by the child itself. *)
Record Descendant := mkDescendant {
  d_pid : nat;
  d_alive_until : option nat;     (* [None]: it never exits by itself *)
  d_holds_pipes : bool            (* it kept the stdout and stderr it inherited *)
}.

Record Program := mkProgram {
  exits_at : option nat;          (* [None]: it never exits by itself *)
  exit_code : Z;
  out : string;                   (* written to stdout before exit or kill *)
  err : string;                   (* written to stderr before exit or kill *)
  reap_delay : nat;               (* seconds from SIGKILL until wait() returns *)
  descendants : list Descendant
}.

Inductive Launch :=
| LaunchFail (msg : string)       (* the command could not be started: OSError *)
| Launched (pid : nat) (p : Program).

Inductive Syscall :=
| SysFork (pid : nat)
| SysKill (pid : nat)             (* SIGKILL to one process *)
| SysKillpg (pgid : nat)          (* a signal to a whole process group *)
| SysWait (pid : nat).

Inductive Outcome :=
| Completed (returncode : Z) (stdout stderr : string)
| TimeoutExpired (stdout stderr : string)   (* carries the partial output *)
| LaunchError (msg : string).

Definition finishes_within (p : Program) (timeout : Z) : bool :=
  match exits_at p with
  | Some e => (Z.of_nat e <? timeout)%Z
  | None => false
  end.

(** The latest of a list of exit times; [None] when one of them never
    comes. *)
Fixpoint latest (times : list (option nat)) : option nat :=
  match times with
  | [] => Some 0
  | None :: _ => None
  | Some e :: rest =>
      match latest rest with
      | Some e' => Some (Nat.max e e')
      | None => None
      end
  end.

(** The moment both pipes reach their end: the child and the descendants
    that hold them have all exited. *)
Definition pipes_closed_at (p : Program) : option nat :=
  latest (exits_at p :: map d_alive_until (List.filter d_holds_pipes (descendants p))).

Definition completes_within (p : Program) (timeout : Z) : bool :=
  match pipes_closed_at p with
  | Some e => (Z.of_nat e <? timeout)%Z
  | None => false
  end.

(** The moment the child is gone: its own exit, or the end of the
    kill-and-wait sequence. *)
Definition child_gone_at (p : Program) (timeout : Z) : nat :=
  match exits_at p with
  | Some e => if (Z.of_nat e <? timeout)%Z then e else Z.to_nat timeout + reap_delay p
  | None => Z.to_nat timeout + reap_delay p
  end.

Record Run := mkRun {
  run_outcome : Outcome;
  run_end : nat;                          (* when the call returns or raises *)
  run_syscalls : list (nat * Syscall)     (* each with the time it completes *)
}.

(** [subprocess.run(argv, capture_output=True, text=True, timeout=timeout)] *)
Definition subprocess_run (l : Launch) (timeout : Z) : Run :=
  match l with
  | LaunchFail msg => mkRun (LaunchError msg) 0 []
  | Launched pid p =>
      let t_end := child_gone_at p timeout in
      if completes_within p timeout
      then (* the pipes are read to their end, then the child is reaped *)
        let t_eof := default 0 (pipes_closed_at p) in
        mkRun (Completed (exit_code p) (out p) (err p)) t_eof
              [(0, SysFork pid); (t_eof, SysWait pid)]
      else if finishes_within p timeout
      then (* the child has exited but a descendant keeps a pipe open:
              [Popen.kill] finds the child gone and sends nothing *)
        mkRun (TimeoutExpired (out p) (err p)) (Z.to_nat timeout)
              [(0, SysFork pid); (Z.to_nat timeout, SysWait pid)]
      else mkRun (TimeoutExpired (out p) (err p)) t_end
                 [(0, SysFork pid); (Z.to_nat timeout, SysKill pid); (t_end, SysWait pid)]
  end.

(** The system calls completed by time [T]. *)
Definition syscalls_by (T : nat) (l : list (nat * Syscall)) : list Syscall :=
  map snd (List.filter (fun ts => fst ts <=? T) l).

Definition descendant_alive (T : nat) (d : Descendant) : bool :=
  match d_alive_until d with
  | None => true
  | Some u => T <? u
  end.

(** The processes of this launch that are still in the process table at
    time [T]. *)
Definition alive_at (l : Launch) (timeout : Z) (T : nat) : list nat :=
  match l with
  | LaunchFail _ => []
  | Launched pid p =>
      (if child_gone_at p timeout <=? T then [] else [pid])
      ++ map d_pid (List.filter (descendant_alive T) (descendants p))
  end.

End Proc.

(** ** What the two container handlers share

    The [result] dictionary of [execute_with_timeout] and the response of
    [create_response] have the same keys in the C# and the Go container. *)
Record ExecResult := mkExecResult {
  success : bool;
  stdout : string;
  stderr : string;
  timeout : bool;
  returncode : option Z           (* the key is only set when the run completes *)
}.

Record Response := mkResponse {
  statusCode : Z;
  body_success : bool;
  body_stdout : string;
  body_execution_stdout : string;
  body_execution_stderr : string;
  body_error : option string      (* the key is absent when [None] *)
}.

(** What [execute_with_timeout] leaves behind when it returns. *)
Record Finished := mkFinished {
  fin_result : ExecResult;
  fin_time : nat;                       (* when execute_with_timeout returns *)
  fin_syscalls : list Proc.Syscall;     (* the system calls completed by then *)
  fin_alive : list nat                  (* pids still in the process table then *)
}.

(** [bool(s)] for a string *)
Definition nonempty (s : string) : bool :=
  match s with EmptyString => false | _ => true end.

(** [create_response(success, stdout, stderr, status_code)] *)
Definition create_response (ok : bool) (o e : string) (status_code : Z) : Response :=
  mkResponse status_code ok o o e
             (if nonempty e && negb ok then Some e else None).

(** The message both containers store on a run timeout. *)
Definition timeout_message (timeout_seconds : Z) : string :=
  "Execution timeout (" +:+ Py.str_of_int timeout_seconds +:+ " seconds exceeded)".

(** A JSON number as [json.loads] reads it: an [int], or a finite [float],
    taken as the ratio it stands for. *)
Inductive Num :=
| Int (z : Z)
| Float (numerator : Z) (denominator : positive).

(** [int(x)]: an [int] is returned as it is, a [float] is truncated
    towards zero. *)
Definition int (x : Num) : Z :=
  match x with
  | Int z => z
  | Float n d => Z.quot n (Z.pos d)
  end.

(** A request body, once parsed: [timeout] is [None] when the key is absent. *)
Record Request := mkRequest {
  req_code : string;
  req_testInput : string;
  req_timeout : option Num
}.

(** [indent_code(code, spaces)], the same function in the C# and Go
    containers: non-blank lines get the margin, blank lines stay as they are. *)
Definition indent_code (code : string) (n : nat) : string :=
  Str.join Str.nl
    (map (fun line => if Str.strip_nonempty line then Str.spaces n +:+ line else line)
         (Str.split_lines code)).

(** ** terraform/containers/csharp/lambda_function.py: entry point wrapping *)
Module CSharp.

Definition has_main (code : string) : bool :=
  Str.contains "static void Main" code || Str.contains "static async Task Main" code.

Definition wrapper_head : string :=
  "using System;" +:+ Str.nl +:+
  "using System.Threading.Tasks;" +:+ Str.nl +:+
  Str.nl +:+
  "class Program " +:+ Str.nl +:+
  "{" +:+ Str.nl +:+
  "    static void Main(string[] args)" +:+ Str.nl +:+
  "    {" +:+ Str.nl.

Definition wrapper_tail : string :=
  Str.nl +:+ "    }" +:+ Str.nl +:+ "}".

(** The value bound to [wrapped_code] (lines 78-91). *)
Definition wrapped_code (code : string) : string :=
  if negb (Str.contains "static void Main" code)
     && negb (Str.contains "static async Task Main" code)
  then wrapper_head +:+ indent_code code 8 +:+ wrapper_tail
  else code.

Record World := mkWorld {
  makedirs_workspace : option string;         (* OSError of os.makedirs(workspace) *)
  write_project : string -> option string;    (* OSError while writing the project *)
  dotnet_build : string -> Proc.Launch;       (* the build of the written Program.cs *)
  dotnet_run : string -> string -> Proc.Launch  (* the built program on a stdin text *)
}.

Definition rm_cmd : list string := ["rm"; "-rf"; "/tmp/workspace/*"].
Definition build_cmd : list string := ["dotnet"; "build"; "--configuration"; "Release"].
Definition run_cmd : list string := ["dotnet"; "bin/Release/net8.0/CSharpExecution"].

Definition result0 : ExecResult := mkExecResult false EmptyString EmptyString false None.

(** The worker [run_csharp]: what it leaves in [result]. *)
Definition run_csharp (r : Proc.Run) (timeout_seconds : Z) (result : ExecResult) : ExecResult :=
  match Proc.run_outcome r with
  | Proc.Completed rc o e => mkExecResult (rc =? 0)%Z o e (timeout result) (Some rc)
  | Proc.TimeoutExpired _ _ =>
      mkExecResult (success result) (stdout result) (timeout_message timeout_seconds)
                   true (returncode result)
  | Proc.LaunchError msg =>
      mkExecResult (success result) (stdout result) ("Runtime error: " +:+ msg)
                   (timeout result) (returncode result)
  end.

(** [execute_with_timeout(project_dir, project_name, test_input, timeout_seconds)]:
    the worker thread runs the program, the caller joins it for
    [timeout_seconds + 1] seconds and returns whether or not it ended. A
    join whose timeout is not positive does not wait at all and finds the
    worker, which has only just been started, still alive. *)
Definition execute_with_timeout (l : Proc.Launch) (timeout_seconds : Z) : Finished :=
  let result := result0 in
  let r := Proc.subprocess_run l timeout_seconds in
  let deadline := Z.to_nat (timeout_seconds + 1) in
  if (0 <? timeout_seconds + 1)%Z && (Proc.run_end r <=? deadline)
  then (* the worker has ended: thread.is_alive() is false *)
    mkFinished (run_csharp r timeout_seconds result) (Proc.run_end r)
               (Proc.syscalls_by (Proc.run_end r) (Proc.run_syscalls r))
               (Proc.alive_at l timeout_seconds (Proc.run_end r))
  else (* thread.is_alive(): the caller stops waiting *)
    mkFinished (mkExecResult (success result) (stdout result)
                             (timeout_message timeout_seconds) true (returncode result))
               deadline
               (Proc.syscalls_by deadline (Proc.run_syscalls r))
               (Proc.alive_at l timeout_seconds deadline).

(** [execute_csharp_code(code, test_input, timeout_seconds)], with the
    commands it has started, in order. *)
Definition execute_csharp_code (w : World) (code test_input : string) (timeout_seconds : Z)
  : Py.Result (ExecResult * list (list string)) :=
  match makedirs_workspace w with
  | Some msg => Py.Raise (Py.mkExn Py.OSError msg)
  | None =>
      let src := wrapped_code code in
      match write_project w src with
      | Some msg =>
          Py.Ret (mkExecResult false EmptyString ("Execution error: " +:+ msg) false None,
                  [rm_cmd])
      | None =>
          let compile_result := Proc.subprocess_run (dotnet_build w src) 15 in
          match Proc.run_outcome compile_result with
          | Proc.LaunchError msg =>
              Py.Ret (mkExecResult false EmptyString ("Execution error: " +:+ msg) false None,
                      [rm_cmd; build_cmd])
          | Proc.TimeoutExpired _ _ =>
              Py.Ret (mkExecResult false EmptyString
                                   "Compilation timeout (15 seconds exceeded)" false None,
                      [rm_cmd; build_cmd])
          | Proc.Completed rc _ e =>
              if negb (rc =? 0)%Z
              then Py.Ret (mkExecResult false EmptyString
                                        ("Compilation error:" +:+ Str.nl +:+ e) false None,
                           [rm_cmd; build_cmd])
              else Py.Ret (fin_result (execute_with_timeout (dotnet_run w src test_input)
                                                            timeout_seconds),
                           [rm_cmd; build_cmd; run_cmd])
          end
      end
  end.

(** [timeout_seconds = min(int(body.get('timeout', 25)), 25)] *)
Definition timeout_seconds (req : Request) : Z :=
  Z.min (int (default (Int 25) (req_timeout req))) 25.

(** [lambda_handler(event, context)] on a parsed body. *)
Definition lambda_handler (w : World) (req : Request) : Response * list (list string) :=
  if negb (Str.strip_nonempty (req_code req))
  then (create_response false EmptyString "No code provided" 400, [])
  else
    match execute_csharp_code w (req_code req) (req_testInput req) (timeout_seconds req) with
    | Py.Ret (result, cmds) =>
        (create_response (success result) (stdout result) (stderr result)
                         (if success result then 200%Z else 400%Z), cmds)
    | Py.Raise e =>
        (create_response false EmptyString ("Lambda handler error: " +:+ Py.exn_msg e) 500, [])
    end.

End CSharp.

(** ** terraform/containers/go/lambda_function.py: entry point wrapping *)
Module Go.

(** The double quote character of the generated import block. *)
Definition dq : string := String (ascii_of_nat 34) EmptyString.

Definition wrapper_head : string :=
  "package main" +:+ Str.nl +:+
  Str.nl +:+
  "import (" +:+ Str.nl +:+
  "    " +:+ dq +:+ "fmt" +:+ dq +:+ Str.nl +:+
  "    " +:+ dq +:+ "bufio" +:+ dq +:+ Str.nl +:+
  "    " +:+ dq +:+ "os" +:+ dq +:+ Str.nl +:+
  "    " +:+ dq +:+ "strings" +:+ dq +:+ Str.nl +:+
  ")" +:+ Str.nl +:+
  Str.nl +:+
  "func main() {" +:+ Str.nl.

Definition wrapper_tail : string := Str.nl +:+ "}".

(** The value bound to [wrapped_code] (lines 64-83). *)
Definition wrapped_code (code : string) : string :=
  if negb (Str.contains "func main()" code)
  then wrapper_head +:+ indent_code code 4 +:+ wrapper_tail
  else if negb (Str.contains "package main" code)
       then "package main" +:+ Str.nl +:+ Str.nl +:+ code
       else code.

Definition result0 : ExecResult := mkExecResult false EmptyString EmptyString false None.

(** The worker [run_go]: what it leaves in [result]. *)
Definition run_go (r : Proc.Run) (timeout_seconds : Z) (result : ExecResult) : ExecResult :=
  match Proc.run_outcome r with
  | Proc.Completed rc o e => mkExecResult (rc =? 0)%Z o e (timeout result) (Some rc)
  | Proc.TimeoutExpired _ _ =>
      mkExecResult (success result) (stdout result) (timeout_message timeout_seconds)
                   true (returncode result)
  | Proc.LaunchError msg =>
      mkExecResult (success result) (stdout result) ("Runtime error: " +:+ msg)
                   (timeout result) (returncode result)
  end.

(** [execute_with_timeout(workspace, test_input, timeout_seconds)], as in
    the C# container. *)
Definition execute_with_timeout (l : Proc.Launch) (timeout_seconds : Z) : Finished :=
  let result := result0 in
  let r := Proc.subprocess_run l timeout_seconds in
  let deadline := Z.to_nat (timeout_seconds + 1) in
  if (0 <? timeout_seconds + 1)%Z && (Proc.run_end r <=? deadline)
  then
    mkFinished (run_go r timeout_seconds result) (Proc.run_end r)
               (Proc.syscalls_by (Proc.run_end r) (Proc.run_syscalls r))
               (Proc.alive_at l timeout_seconds (Proc.run_end r))
  else
    mkFinished (mkExecResult (success result) (stdout result)
                             (timeout_message timeout_seconds) true (returncode result))
               deadline
               (Proc.syscalls_by deadline (Proc.run_syscalls r))
               (Proc.alive_at l timeout_seconds deadline).

Record World := mkWorld {
  makedirs_workspace : option string;        (* OSError of os.makedirs(workspace) *)
  go_mod_init : Proc.Launch;                 (* [go mod init execution] *)
  write_source : string -> option string;    (* OSError while writing main.go *)
  go_build : string -> Proc.Launch;          (* the build of the written main.go *)
  run_main : string -> string -> Proc.Launch (* the built program on a stdin text *)
}.

Definition rm_cmd : list string := ["rm"; "-rf"; "/tmp/workspace/*"].
Definition mod_init_cmd : list string := ["go"; "mod"; "init"; "execution"].
Definition build_cmd : list string := ["go"; "build"; "-o"; "main"; "main.go"].
Definition run_cmd : list string := ["./main"].

(** [subprocess.run(argv, cwd=workspace, check=False)]: without a timeout the
    call waits for the command however long it takes; [None] when it never
    ends. A command that cannot be started raises [OSError]. *)
Definition run_unbounded (l : Proc.Launch) : option (option string) :=
  match l with
  | Proc.LaunchFail msg => Some (Some msg)
  | Proc.Launched _ p =>
      match Proc.exits_at p with
      | Some _ => Some None
      | None => None
      end
  end.

Definition error_result (msg : string) : ExecResult :=
  mkExecResult false EmptyString msg false None.

(** [execute_go_code(code, test_input, timeout_seconds)], with the commands
    it has started, in order; [None] when the call never returns. *)
Definition execute_go_code (w : World) (code test_input : string) (timeout_seconds : Z)
  : option (Py.Result (ExecResult * list (list string))) :=
  match makedirs_workspace w with
  | Some msg => Some (Py.Raise (Py.mkExn Py.OSError msg))
  | None =>
      match run_unbounded (go_mod_init w) with
      | None => None
      | Some (Some msg) =>
          Some (Py.Ret (error_result ("Execution error: " +:+ msg), [rm_cmd; mod_init_cmd]))
      | Some None =>
          let src := wrapped_code code in
          match write_source w src with
          | Some msg =>
              Some (Py.Ret (error_result ("Execution error: " +:+ msg),
                            [rm_cmd; mod_init_cmd]))
          | None =>
              let compile_result := Proc.subprocess_run (go_build w src) 10 in
              match Proc.run_outcome compile_result with
              | Proc.LaunchError msg =>
                  Some (Py.Ret (error_result ("Execution error: " +:+ msg),
                                [rm_cmd; mod_init_cmd; build_cmd]))
              | Proc.TimeoutExpired _ _ =>
                  Some (Py.Ret (error_result "Compilation timeout (10 seconds exceeded)",
                                [rm_cmd; mod_init_cmd; build_cmd]))
              | Proc.Completed rc _ e =>
                  if negb (rc =? 0)%Z
                  then Some (Py.Ret (error_result ("Compilation error:" +:+ Str.nl +:+ e),
                                     [rm_cmd; mod_init_cmd; build_cmd]))
                  else Some (Py.Ret (fin_result (execute_with_timeout
                                                   (run_main w src test_input) timeout_seconds),
                                     [rm_cmd; mod_init_cmd; build_cmd; run_cmd]))
              end
          end
      end
  end.

(** [timeout_seconds = min(int(body.get('timeout', 25)), 25)] *)
Definition timeout_seconds (req : Request) : Z :=
  Z.min (int (default (Int 25) (req_timeout req))) 25.

(** [lambda_handler(event, context)] on a parsed body. *)
Definition lambda_handler (w : World) (req : Request)
  : option (Response * list (list string)) :=
  if negb (Str.strip_nonempty (req_code req))
  then Some (create_response false EmptyString "No code provided" 400, [])
  else
    match execute_go_code w (req_code req) (req_testInput req) (timeout_seconds req) with
    | None => None
    | Some (Py.Ret (result, cmds)) =>
        Some (create_response (success result) (stdout result) (stderr result)
                              (if success result then 200%Z else 400%Z), cmds)
    | Some (Py.Raise e) =>
        Some (create_response false EmptyString
                              ("Lambda handler error: " +:+ Py.exn_msg e) 500, [])
    end.

End Go.

(** ** packages/runtime/lambda-functions/java-judge.py

    The module uses [time.time()] although [time] is only imported by the
    [__main__] block at the end of the file; the embedding takes the name as
    bound, as it is when the file is run as a script. Clock readings are the
    model's seconds. *)
Module JavaJudge.

(** A request body, once parsed. The two limits are JSON integers; [None]
    stands for an absent key. *)
Record Request := mkRequest {
  source_code : string;
  input : string;
  time_limit : option Z;
  memory_limit : option Z
}.

(** Line 22: [time_limit = min(body.get('time_limit', 10), 30)] *)
Definition time_limit_used (req : Request) : Z :=
  Z.min (default 10%Z (time_limit req)) 30.

(** Line 23: [memory_limit = min(body.get('memory_limit', 128), 512)] *)
Definition memory_limit_used (req : Request) : Z :=
  Z.min (default 128%Z (memory_limit req)) 512.

(** [extract_main_class(source_code)]; the loop over the lines is [go]. *)
Definition class_of_line (line : string) : option string :=
  let line := Str.strip line in
  if Str.startswith "public class " line
  then match Str.words line with
       | _ :: _ :: name :: _ => Some (Str.before " "%char (Str.before "{"%char name))
       | _ => None
       end
  else None.

Definition extract_main_class (source_code : string) : option string :=
  let has_main := Str.contains "public static void main" source_code in
  let fix go (lines : list string) : option string :=
    match lines with
    | [] => None
    | line :: rest =>
        match class_of_line line with
        | Some class_name => if has_main then Some class_name else go rest
        | None => go rest
        end
    end in
  go (Str.split_lines source_code).

(** The file imports [json], [sys], [os], [traceback], [subprocess],
    [tempfile] and [Path] at its top; the name [time] is bound only by the
    [import time] of the [__main__] block (line 219). [time_bound] tells
    whether that block has run: it is [true] when the file is run as a
    script and [false] when the module is imported, as the Lambda runtime
    does. *)
Record World := mkWorld {
  write_source : string -> string -> option string;   (* OSError of open/write *)
  javac : string -> string -> Proc.Launch;            (* file name, source text *)
  java : string -> string -> Z -> Proc.Launch;        (* main class, stdin, -Xmx *)
  time_bound : bool
}.

(** What the evaluation of the name [time] raises when it is not bound. *)
Definition name_error : Py.Exn :=
  Py.mkExn (Py.OtherException "NameError") "name 'time' is not defined".

Record CompileResult := mkCompileResult {
  c_success : bool;
  c_output : string;
  c_error : option string
}.

(** [compile_java(java_file, working_dir, time_limit)] *)
Definition compile_java (r : Proc.Run) (time_limit : Z) : CompileResult :=
  match Proc.run_outcome r with
  | Proc.Completed rc o e =>
      if (rc =? 0)%Z then mkCompileResult true o None
      else mkCompileResult false (o +:+ e) (Some "Compilation failed")
  | Proc.TimeoutExpired _ _ =>
      mkCompileResult false EmptyString
        (Some ("Compilation timeout (" +:+ Py.str_of_int time_limit +:+ "s)"))
  | Proc.LaunchError msg =>
      mkCompileResult false EmptyString (Some ("Compilation error: " +:+ msg))
  end.

Record ExecutionResult := mkExecutionResult {
  x_stdout : string;
  x_stderr : string;
  x_exit_code : Z;
  x_time : nat;
  x_memory : Z
}.

(** [execute_java(main_class, working_dir, input_data, time_limit, memory_limit)]:
    line 135 reads [time.time()] before the [try], so with [time] unbound
    the call raises before the java command is started. *)
Definition execute_java (time_bound : bool) (l : Proc.Launch) (time_limit : Z)
  : Py.Result ExecutionResult :=
  if negb time_bound then Py.Raise name_error
  else
    let r := Proc.subprocess_run l time_limit in
    Py.Ret
      match Proc.run_outcome r with
      | Proc.Completed rc o e => mkExecutionResult o e rc (Proc.run_end r) 64
      | Proc.TimeoutExpired _ _ =>
          mkExecutionResult EmptyString
            ("Time limit exceeded (" +:+ Py.str_of_int time_limit +:+ "s)")
            124 (Proc.run_end r) 0
      | Proc.LaunchError msg =>
          mkExecutionResult EmptyString ("Runtime error: " +:+ msg) 1 (Proc.run_end r) 0
      end.

(** The body [create_response] serialises; a key that is not passed is
    [None]. The [timestamp] key is left out. *)
Record Response := mkResponse {
  statusCode : Z;
  message : string;
  compile_output : option string;
  r_stdout : option string;
  r_stderr : option string;
  r_execution_time : option nat;
  r_memory_used : option Z;
  r_exit_code : option Z;
  error_details : option string
}.

Definition plain_response (status : Z) (msg : string) : Response :=
  mkResponse status msg None None None None None None None.

(** [create_response(status_code, message, **kwargs)]: line 204 reads
    [time.time()] for the timestamp. *)
Definition create_response (time_bound : bool) (r : Response) : Py.Result Response :=
  if time_bound then Py.Ret r else Py.Raise name_error.

(** [PhaseCompile]: [compile_java] was called; [PhaseExecute]:
    [execute_java] was called. *)
Inductive Phase := PhaseCompile | PhaseExecute.

(** The [try] block of [lambda_handler] on a parsed body, with the phases
    it entered. *)
Definition handler_body (w : World) (req : Request) : Py.Result Response * list Phase :=
  let source_code := Str.strip (source_code req) in
  let input_data := input req in
  let time_limit := time_limit_used req in
  let memory_limit := memory_limit_used req in
  if negb (nonempty source_code)
  then (create_response (time_bound w) (plain_response 400 "No source code provided"), [])
  else
    match extract_main_class source_code with
    | None =>
        (create_response (time_bound w)
           (plain_response 400 "No public class with main method found"), [])
    | Some main_class =>
        if negb (nonempty main_class)
        then (create_response (time_bound w)
                (plain_response 400 "No public class with main method found"), [])
        else
          match write_source w (main_class +:+ ".java") source_code with
          | Some msg => (Py.Raise (Py.mkExn Py.OSError msg), [])
          | None =>
              let compile_result :=
                compile_java (Proc.subprocess_run (javac w (main_class +:+ ".java") source_code)
                                                  time_limit) time_limit in
              if negb (c_success compile_result)
              then (create_response (time_bound w)
                      (mkResponse 400 (default EmptyString (c_error compile_result))
                                  (Some (c_output compile_result))
                                  None None None None None None), [PhaseCompile])
              else
                match execute_java (time_bound w)
                                   (java w main_class input_data memory_limit) time_limit with
                | Py.Raise e => (Py.Raise e, [PhaseCompile; PhaseExecute])
                | Py.Ret execution_result =>
                    (create_response (time_bound w)
                       (mkResponse 200 "Execution completed" None
                                   (Some (x_stdout execution_result))
                                   (Some (x_stderr execution_result))
                                   (Some (x_time execution_result))
                                   (Some (x_memory execution_result))
                                   (Some (x_exit_code execution_result))
                                   None), [PhaseCompile; PhaseExecute])
                end
          end
    end.

(** [lambda_handler(event, context)] on a parsed body: the [try] block and
    its [except Exception] clause, which answers through [create_response]
    again. [format_exc] is the text of [traceback.format_exc()]. *)
Definition lambda_handler (w : World) (format_exc : string) (req : Request)
  : Py.Result Response * list Phase :=
  match handler_body w req with
  | (Py.Raise e, phases) =>
      if Py.is_Exception e
      then (create_response (time_bound w)
              (mkResponse 500 ("Internal server error: " +:+ Py.exn_msg e)
                          None None None None None None (Some format_exc)), phases)
      else (Py.Raise e, phases)
  | answer => answer
  end.

End JavaJudge.

(** ** packages/runtime/lambda-functions/python-judge.py *)
Module PythonJudge.

(** The objects a namespace can hold, as far as the handler is concerned. *)
Inductive PyVal :=
| Builtin (name : string)          (* an object of the interpreter's builtins *)
| PyModule (name : string)         (* an imported module *)
| PyStr (s : string)
| BuiltinsRef.                     (* the reference stored under [__builtins__] *)

Global Instance PyVal_eq_dec : EqDecision PyVal.
Proof. solve_decision. Defined.

Definition safe_builtin_names : list string :=
  [ "print"; "len"; "str"; "int"; "float"; "bool"; "list"; "dict"; "tuple";
    "set"; "range"; "enumerate"; "zip"; "map"; "filter"; "sum"; "max"; "min";
    "abs"; "round"; "sorted"; "reversed"; "any"; "all"; "isinstance"; "type";
    "hasattr"; "getattr"; "setattr"; "ord"; "chr"; "hex"; "oct"; "bin";
    "Exception"; "ValueError"; "TypeError"; "KeyError"; "IndexError" ].

Definition safe_module_names : list string :=
  [ "math"; "random"; "string"; "datetime"; "json" ].

Definition safe_builtins : gmap string PyVal :=
  list_to_map ((fun n => (n, Builtin n)) <$> safe_builtin_names).

Definition safe_modules : gmap string PyVal :=
  list_to_map ((fun n => (n, PyModule n)) <$> safe_module_names).

(** [create_restricted_globals()]: [{**safe_builtins, **safe_modules}], the
    right operand winning on a shared key. *)
Definition create_restricted_globals : gmap string PyVal :=
  safe_modules ∪ safe_builtins.

(** The dictionary handed to [exec] (lines 105-114). *)
Definition restricted_globals (test_input : option string) : gmap string PyVal :=
  match test_input with
  | Some t => <["test_input" := PyStr t]> create_restricted_globals
  | None => create_restricted_globals
  end.

(** What [exec(code, globals)] does to the dictionary before running the
    code: when the key [__builtins__] is missing, a reference to the
    builtins module is stored under it. *)
Definition exec_globals (g : gmap string PyVal) : gmap string PyVal :=
  match g !! "__builtins__" with
  | Some _ => g
  | None => <["__builtins__" := BuiltinsRef]> g
  end.

(** Name lookup in code run by [exec]: the dictionary first, then whatever
    its [__builtins__] entry gives access to. [builtins] is the
    interpreter's own builtins module. *)
Definition resolve (builtins : gmap string PyVal) (g : gmap string PyVal) (name : string)
  : option PyVal :=
  match g !! name with
  | Some v => Some v
  | None =>
      match g !! "__builtins__" with
      | Some BuiltinsRef => builtins !! name
      | _ => None
      end
  end.

(** The names submitted code can use under [execute_python_code]. *)
Definition available (builtins : gmap string PyVal) (test_input : option string)
                     (name : string) : bool :=
  bool_decide (is_Some (resolve builtins (exec_globals (restricted_globals test_input)) name)).

(** How the [exec] call ends. *)
Inductive ExecEnd :=
| Normal
| Raised (e : Py.Exn)
| Hang.                            (* the call never returns *)

Record ExecRun := mkExecRun {
  printed_out : string;            (* written to sys.stdout by then *)
  printed_err : string;            (* written to sys.stderr by then *)
  exec_end : ExecEnd
}.

(** The interpreter and the clock: what the evaluation of a source does in
    a namespace with the alarm set to the given number of seconds, what
    [traceback.format_exc()] prints for an exception, whether an armed
    alarm goes off after [exec] is over but before it is cancelled, and
    the measured milliseconds. *)
Record World := mkWorld {
  run_exec : string -> gmap string PyVal -> Z -> ExecRun;
  format_exc : Py.Exn -> string;
  late_alarm : bool;
  elapsed_ms : Z
}.


(** A request, once parsed. The timeout is a JSON integer; [None] stands
    for an absent key. *)
Record Request := mkRequest {
  code : string;
  testInput : option string;
  timeout : option Z
}.

(** Lines 44 and 49: [timeout_seconds = min(body.get('timeout', 10), 30)] *)
Definition timeout_seconds (req : Request) : Z :=
  Z.min (default 10%Z (timeout req)) 30.

(** [signal.alarm(n)]: the argument must fit a C [int]. *)
Definition signal_alarm (n : Z) : Py.Result unit :=
  if (n <? - 2 ^ 31)%Z || (2 ^ 31 <=? n)%Z
  then Py.Raise (Py.mkExn Py.OverflowError "Python int too large to convert to C int")
  else Py.Ret tt.

Record Body := mkBody {
  b_success : bool;
  b_stdout : string;
  b_stderr : string;
  b_executionTime : Z;
  b_memoryUsed : Z;
  b_exitCode : Z;
  b_error : option string
}.

Record Response := mkResponse { statusCode : Z; body : Body }.

(** [create_error_response(message, status_code=400)] *)
Definition create_error_response (msg : string) (status_code : Z) : Response :=
  mkResponse status_code (mkBody false EmptyString msg 0 0 1 (Some msg)).

Definition estimate_memory_usage : Z := 32.

Record CodeResult := mkCodeResult {
  cr_success : bool;
  cr_stdout : string;
  cr_stderr : string
}.

(** The two characters written after the exception line: a backslash and
    the letter n. *)
Definition backslash_n : string := String (ascii_of_nat 92) "n".

Inductive Outcome (A : Type) :=
| Returns (a : A)
| Propagates (e : Py.Exn)
| NeverReturns.
Arguments Returns {A} a.
Arguments Propagates {A} e.
Arguments NeverReturns {A}.

(** [execute_python_code(code, test_input)] with the alarm armed for
    [alarm] seconds. *)
Definition execute_python_code (w : World) (code : string) (test_input : option string)
                               (alarm : Z) : Outcome CodeResult :=
  let r := run_exec w code (exec_globals (restricted_globals test_input)) alarm in
  match exec_end r with
  | Normal => Returns (mkCodeResult true (printed_out r) (printed_err r))
  | Raised e =>
      if Py.is_Exception e
      then Returns (mkCodeResult false (printed_out r)
                      (printed_err r +:+ Py.class_name e +:+ ": " +:+ Py.exn_msg e
                         +:+ backslash_n +:+ format_exc w e))
      else Propagates e
  | Hang => NeverReturns
  end.

(** [lambda_handler(event, context)] on a parsed request. *)
Definition lambda_handler (w : World) (req : Request) : Outcome Response :=
  let user_code := code req in
  let timeout_seconds := timeout_seconds req in
  if negb (Str.strip_nonempty user_code)
  then Returns (create_error_response "No code provided" 400)
  else if (50000 <? Str.len user_code)%Z
  then Returns (create_error_response "Code too large (max 50KB)" 400)
  else
    match signal_alarm timeout_seconds with
    | Py.Raise e =>
        Returns (create_error_response ("Execution failed: " +:+ Py.exn_msg e) 400)
    | Py.Ret _ =>
        match execute_python_code w user_code (testInput req) timeout_seconds with
        | NeverReturns => NeverReturns
        | Propagates e =>
            (* the [finally] clause runs [signal.alarm(0)] while [e] is on
               its way out: a [TimeoutError] raised by the alarm before
               that replaces [e] and is caught by [except TimeoutError] *)
            if late_alarm w && (0 <? timeout_seconds)%Z
            then Returns (create_error_response "Execution timed out" 408)
            else Propagates e
        | Returns result =>
            if late_alarm w && (0 <? timeout_seconds)%Z
            then Returns (create_error_response "Execution timed out" 408)
            else
              Returns (mkResponse 200
                (mkBody true (cr_stdout result) (cr_stderr result) (elapsed_ms w)
                        estimate_memory_usage
                        (if cr_success result then 0 else 1) None))
        end
    end.

End PythonJudge.

(** ** The fragment of Python's [re] that sql-judge.py uses

    A pattern is read character by character. A backslash followed by a
    backslash stands for one literal backslash; an opening parenthesis
    starts a group and needs its closing one; a star repeats the piece
    before it; every other character of the patterns at hand stands for
    itself. Any other construct is [OutsideFragment]. *)
Module Regex.

Record Piece := mkPiece { lit : ascii; starred : bool }.

Inductive Compiled :=
| Pattern (ps : list Piece)
| Error (msg : string) (pos : nat)       (* re.error *)
| OutsideFragment.

Definition backslash : ascii := ascii_of_nat 92.

Definition is_plain (c : ascii) : bool :=
  let n := nat_of_ascii c in
  ((48 <=? n) && (n <=? 57)) || ((65 <=? n) && (n <=? 90))
  || ((97 <=? n) && (n <=? 122)) || (n =? 95) || (n =? 32).

(** The pieces read so far are kept in reverse order in [acc]. *)
Fixpoint parse (pos : nat) (acc : list Piece) (s : string) : Compiled :=
  match s with
  | EmptyString => Pattern (rev acc)
  | String c s' =>
      if decide (c = backslash) then
        match s' with
        | EmptyString => Error "bad escape (end of pattern)" pos
        | String c' s'' =>
            if decide (c' = backslash)
            then parse (S (S pos)) (mkPiece backslash false :: acc) s''
            else OutsideFragment
        end
      else if decide (c = "("%char) then
        if Str.contains ")" s' then OutsideFragment
        else match parse (S pos) [] s' with
             | Pattern _ => Error "missing ), unterminated subpattern" pos
             | other => other
             end
      else if decide (c = "*"%char) then
        match acc with
        | [] => Error "nothing to repeat" pos
        | p :: acc' =>
            if starred p then Error "multiple repeat" pos
            else parse (S pos) (mkPiece (lit p) true :: acc') s'
        end
      else if is_plain c then parse (S pos) (mkPiece c false :: acc) s'
      else OutsideFragment
  end.

Definition compile (pattern : string) : Compiled := parse 0 [] pattern.

(** Does the pattern match at the start of the text? *)
Fixpoint match_here (ps : list Piece) (s : string) : bool :=
  match ps with
  | [] => true
  | p :: ps' =>
      if starred p then
        (fix star (s : string) : bool :=
           match_here ps' s ||
           match s with
           | String c s' => if decide (c = lit p) then star s' else false
           | EmptyString => false
           end) s
      else
        match s with
        | String c s' => if decide (c = lit p) then match_here ps' s' else false
        | EmptyString => false
        end
  end.

(** Does it match somewhere in the text? *)
Fixpoint match_anywhere (ps : list Piece) (s : string) : bool :=
  match_here ps s ||
  match s with
  | String _ s' => match_anywhere ps s'
  | EmptyString => false
  end.

(** The text left after the leftmost-first match at the start of [s]: a
    starred piece takes as many characters as it can and gives them back
    one at a time. *)
Fixpoint match_end (ps : list Piece) (s : string) : option string :=
  match ps with
  | [] => Some s
  | p :: ps' =>
      if starred p then
        (fix star (s : string) : option string :=
           match
             match s with
             | String c s' => if decide (c = lit p) then star s' else None
             | EmptyString => None
             end
           with
           | Some rest => Some rest
           | None => match_end ps' s
           end) s
      else
        match s with
        | String c s' => if decide (c = lit p) then match_end ps' s' else None
        | EmptyString => None
        end
  end.

(** [len(re.findall(...))]: matches are taken from left to right and do
    not overlap; after an empty match the scan moves on by one character. *)
Fixpoint count_from (fuel : nat) (ps : list Piece) (s : string) : nat :=
  match fuel with
  | O => 0
  | S fuel' =>
      match match_end ps s with
      | Some rest =>
          if decide (rest = s)
          then match s with
               | String _ s' => S (count_from fuel' ps s')
               | EmptyString => 1
               end
          else S (count_from fuel' ps rest)
      | None =>
          match s with
          | String _ s' => count_from fuel' ps s'
          | EmptyString => 0
          end
      end
  end.

Definition raise_of (msg : string) (pos : nat) : Py.Exn :=
  Py.mkExn Py.ReError (msg +:+ " at position " +:+ pretty pos).

Definition outside_fragment : Py.Exn :=
  Py.mkExn (Py.OtherException "OutsideFragment") EmptyString.

(** [len(re.findall(pattern, text))], or the [re.error]. *)
Definition findall_count (pattern text : string) : Py.Result nat :=
  match compile pattern with
  | Pattern ps => Py.Ret (count_from (S (String.length text)) ps text)
  | Error msg pos => Py.Raise (raise_of msg pos)
  | OutsideFragment => Py.Raise outside_fragment
  end.

(** [re.search(pattern, text)] as a truth value, or the [re.error]. *)
Definition search (pattern text : string) : Py.Result bool :=
  match compile pattern with
  | Pattern ps => Py.Ret (match_anywhere ps text)
  | Error msg pos => Py.Raise (raise_of msg pos)
  | OutsideFragment => Py.Raise outside_fragment
  end.

End Regex.

(** ** packages/runtime/lambda-functions/sql-judge.py *)
Module SqlJudge.

Definition dangerous_statements : list string :=
  [ "DROP"; "CREATE"; "ALTER"; "INSERT"; "UPDATE"; "DELETE";
    "TRUNCATE"; "GRANT"; "REVOKE"; "EXEC"; "EXECUTE";
    "CALL"; "DO"; "LOAD"; "COPY" ].

Definition dangerous_functions : list string :=
  [ "PG_SLEEP"; "PG_TERMINATE_BACKEND"; "PG_CANCEL_BACKEND";
    "LO_CREATE"; "LO_UNLINK"; "LO_IMPORT"; "LO_EXPORT" ].

(** The two backslashes that [\\] denotes inside a raw string literal. *)
Definition bs2 : string := String Regex.backslash (String Regex.backslash EmptyString).

(** [rf'\\b{statement}\\b'] *)
Definition statement_pattern (statement : string) : string :=
  bs2 +:+ "b" +:+ statement +:+ bs2 +:+ "b".

(** [rf'\\b{func}\\s*\\('] *)
Definition function_pattern (func : string) : string :=
  bs2 +:+ "b" +:+ func +:+ bs2 +:+ "s*" +:+ bs2 +:+ "(".

(** [r'\\(\\s*SELECT\\b'] *)
Definition subquery_pattern : string :=
  bs2 +:+ "(" +:+ bs2 +:+ "s*SELECT" +:+ bs2 +:+ "b".

(** A compiled pattern that begins with a literal backslash followed by
    the plain letter [b]. *)
Definition starts_with_backslash_b (pattern : string) : Prop :=
  exists ps, Regex.compile pattern
             = Regex.Pattern (Regex.mkPiece Regex.backslash false
                                :: Regex.mkPiece "b" false :: ps).

(** The [re.error] of a group opened at offset 17 and never closed. *)
Definition unterminated : Py.Exn :=
  Py.mkExn Py.ReError "missing ), unterminated subpattern at position 17".

Inductive Check :=
| Valid
| Invalid (reason : string).

(** The two [for] loops: the first pattern that matches decides, an
    [re.error] leaves the function. *)
Fixpoint first_hit (pattern_of : string -> string) (reason_of : string -> string)
                   (names : list string) (text : string) : Py.Result (option string) :=
  match names with
  | [] => Py.Ret None
  | name :: rest =>
      match Regex.search (pattern_of name) text with
      | Py.Raise e => Py.Raise e
      | Py.Ret true => Py.Ret (Some (reason_of name))
      | Py.Ret false => first_hit pattern_of reason_of rest text
      end
  end.

(** [validate_sql_security(query)] *)
Definition validate_sql_security (query : string) : Py.Result Check :=
  let query_upper := Str.strip (Str.upper query) in
  match first_hit statement_pattern
                  (fun st => st +:+ " statements are not allowed in read-only mode")
                  dangerous_statements query_upper with
  | Py.Raise e => Py.Raise e
  | Py.Ret (Some reason) => Py.Ret (Invalid reason)
  | Py.Ret None =>
      match first_hit function_pattern (fun f => f +:+ " function is not allowed")
                      dangerous_functions query_upper with
      | Py.Raise e => Py.Raise e
      | Py.Ret (Some reason) => Py.Ret (Invalid reason)
      | Py.Ret None =>
          if (10000 <? Str.len query)%Z
          then Py.Ret (Invalid "Query exceeds maximum length (10KB)")
          else
            match Regex.findall_count subquery_pattern query_upper with
            | Py.Raise e => Py.Raise e
            | Py.Ret subquery_count =>
                if 5 <? subquery_count
                then Py.Ret (Invalid "Query has too many subqueries (max 5)")
                else Py.Ret Valid
            end
      end
  end.

(** The result dictionary of [execute_sql_query]; the function only talks
    to the database, so its result is taken from the environment. *)
Record QueryResult := mkQueryResult {
  q_success : bool;
  q_data : string;               (* [json.dumps(result['data'], indent=2)] *)
  q_row_count : Z;
  q_error : string
}.

Record World := mkWorld {
  execute_sql_query : string -> Z -> QueryResult;
  elapsed_ms : Z
}.

Record Event := mkEvent { sql : string; timeout : option Z }.

Record Body := mkBody {
  b_success : bool;
  b_stdout : string;
  b_stderr : string;
  b_executionTime : Z;
  b_memoryUsed : Z;
  b_exitCode : Z;
  b_rowsAffected : option Z;
  b_error : option string
}.

Record Response := mkResponse { statusCode : Z; body : Body }.

(** [create_error_response(message, status_code=400)] *)
Definition create_error_response (msg : string) : Response :=
  mkResponse 400 (mkBody false EmptyString msg 0 0 1 None (Some msg)).

Definition estimate_memory_usage : Z := 24.

(** [lambda_handler(event, context)], with the queries that were handed to
    [execute_sql_query]. *)
Definition lambda_handler (w : World) (event : Event) : Response * list string :=
  let user_sql := Str.strip (sql event) in
  let timeout_seconds := Z.min (default 30%Z (timeout event)) 60 in
  if negb (nonempty user_sql)
  then (create_error_response "No SQL query provided", [])
  else if (10000 <? Str.len user_sql)%Z
  then (create_error_response "Query too large (max 10KB)", [])
  else
    match validate_sql_security user_sql with
    | Py.Raise e =>
        (create_error_response ("Query execution failed: " +:+ Py.exn_msg e), [])
    | Py.Ret (Invalid reason) =>
        (create_error_response ("Security violation: " +:+ reason), [])
    | Py.Ret Valid =>
        let result := execute_sql_query w user_sql timeout_seconds in
        if q_success result
        then (mkResponse 200
                (mkBody true (q_data result) EmptyString (elapsed_ms w)
                        estimate_memory_usage 0 (Some (q_row_count result)) None),
              [user_sql])
        else (create_error_response (q_error result), [user_sql])
    end.

End SqlJudge.

(** ** terraform/lambda-functions/sql-fixed/sql-capsule-validator.py

    [V] is the type of the values a result row can hold, compared with
    [==]; a row, once turned into a dictionary by [dict(row)], is a finite
    map from column names to values. *)
Module Capsule.

(** [hash(v)] raises [TypeError] for the values that are lists or
    dictionaries, which is how the PostgreSQL driver returns arrays and
    json: [unhashable v] is then the name of the type of [v]. The values
    the SQLite driver returns (int, float, str, bytes, None) can all be
    hashed. *)
Class Hashable (V : Type) := unhashable : V -> option string.

Section Validator.

Context {V : Type} `{EqDecision V} `{Hashable V}.

Abbreviation Row := (gmap string V).

(** What the cursor holds after [cursor.execute(statement)]: the driver's
    error, or the description (absent when the statement returns no
    result set) and the fetched rows as dictionaries. *)
Inductive Exec :=
| ExecError (msg : string)
| ExecDone (description : option (list string)) (rows : list Row).

Record ValidationResult := mkValidationResult {
  v_success : bool;
  v_user_result : option (list Row);
  v_expected_result : option (list Row);
  v_columns : option (list string);
  v_error : option string
}.

Definition failure (msg : string) : ValidationResult :=
  mkValidationResult false None None None (Some msg).

(** [tuple(sorted(row.items()))]: the items in the order of their keys. *)
Definition key_le (x y : string * V) : Prop := String.le x.1 y.1.

Global Instance key_le_dec : RelDecision key_le.
Proof. intros x y. unfold key_le. apply _. Defined.

Definition row_key (row : Row) : list (string * V) :=
  merge_sort key_le (map_to_list row).

(** The first value of a tuple of items that cannot be hashed: the tuple
    is hashed item by item, each key before its value. *)
Fixpoint first_unhashable (items : list (string * V)) : option string :=
  match items with
  | [] => None
  | (_, v) :: rest =>
      match unhashable v with
      | Some type_name => Some type_name
      | None => first_unhashable rest
      end
  end.

Definition unhashable_type (type_name : string) : Py.Exn :=
  Py.mkExn Py.TypeError ("unhashable type: '" +:+ type_name +:+ "'").

(** [set(tuple(sorted(row.items())) for row in rows)]: the rows are taken
    in order and each tuple is hashed when it is added. *)
Fixpoint row_set (rows : list Row) : Py.Result (list (list (string * V))) :=
  match rows with
  | [] => Py.Ret []
  | row :: rest =>
      match first_unhashable (row_key row) with
      | Some type_name => Py.Raise (unhashable_type type_name)
      | None =>
          match row_set rest with
          | Py.Ret keys => Py.Ret (row_key row :: keys)
          | Py.Raise e => Py.Raise e
          end
      end
  end.

(** Every value of every row can be hashed. *)
Definition hashable_rows (rows : list Row) : Prop :=
  forall (row : Row) (k : string) (v : V),
    row ∈ rows -> row !! k = Some v -> unhashable v = None.

(** [set(xs) == set(ys)] *)
Definition set_eq (xs ys : list (list (string * V))) : bool :=
  bool_decide (xs ⊆ ys ∧ ys ⊆ xs).

(** Lines 129-137 and 214-221: the value of [is_correct]; the set of the
    user rows is built first. *)
Definition is_correct (user_result : list Row) (user_cols : list string)
                      (expected_result : list Row) (expected_cols : list string)
  : Py.Result bool :=
  match row_set user_result with
  | Py.Raise e => Py.Raise e
  | Py.Ret user_set =>
      match row_set expected_result with
      | Py.Raise e => Py.Raise e
      | Py.Ret expected_set =>
          let is_correct := set_eq user_set expected_set in
          Py.Ret (if is_correct && negb (bool_decide (user_cols = expected_cols))
                  then false
                  else is_correct)
      end
  end.

(** The dictionary built from [is_correct] (lines 139-145 and 223-229). *)
Definition compared (user_result : list Row) (user_cols : list string)
                    (expected_result : list Row) (expected_cols : list string)
  : Py.Result ValidationResult :=
  match is_correct user_result user_cols expected_result expected_cols with
  | Py.Raise e => Py.Raise e
  | Py.Ret ok =>
      Py.Ret (mkValidationResult ok (Some user_result) (Some expected_result)
                (Some user_cols)
                (if ok then None else Some "Results do not match expected output"))
  end.

Definition none_not_iterable : Py.Exn :=
  Py.mkExn Py.TypeError "'NoneType' object is not iterable".

(** *** The in-memory SQLite backend *)
Section Sqlite.

Variable DB : Type.
Variable execute : DB -> string -> DB * Exec.
Variable memory_db : DB.            (* [sqlite3.connect(':memory:')] *)

(** The loop over [schema_setup]: stops at the first error. The
    statements sent to the engine are collected in order. *)
Fixpoint run_schema (db : DB) (schema_setup : list string)
  : DB * option string * list string :=
  match schema_setup with
  | [] => (db, None, [])
  | statement :: rest =>
      if Str.strip_nonempty statement then
        match execute db statement with
        | (db', ExecError msg) => (db', Some msg, [statement])
        | (db', ExecDone _ _) =>
            let '(db'', e, sent) := run_schema db' rest in
            (db'', e, statement :: sent)
        end
      else run_schema db rest
  end.

(** [validate_with_sqlite(schema_setup, reference_solution, user_query,
    expected_output)], with the statements sent to the engine. *)
Definition validate_with_sqlite (schema_setup : list string)
           (reference_solution user_query : string)
  : Py.Result ValidationResult * list string :=
  let '(db1, e, sent) := run_schema memory_db schema_setup in
  match e with
  | Some msg => (Py.Ret (failure ("SQLite Error: " +:+ msg)), sent)
  | None =>
      match execute db1 reference_solution with
      | (_, ExecError msg) =>
          (Py.Ret (failure ("SQLite Error: " +:+ msg)), sent ++ [reference_solution])
      | (_, ExecDone None _) =>
          (Py.Raise none_not_iterable, sent ++ [reference_solution])
      | (db2, ExecDone (Some expected_cols) expected_result) =>
          if nonempty user_query then
            match execute db2 user_query with
            | (_, ExecError msg) =>
                (Py.Ret (mkValidationResult false None (Some expected_result)
                           (Some expected_cols) (Some ("SQL Error: " +:+ msg))),
                 sent ++ [reference_solution; user_query])
            | (_, ExecDone None _) =>
                (Py.Raise none_not_iterable, sent ++ [reference_solution; user_query])
            | (_, ExecDone (Some user_cols) user_result) =>
                (* a [TypeError] of the comparison is not an [sqlite3.Error] *)
                (compared user_result user_cols expected_result expected_cols,
                 sent ++ [reference_solution; user_query])
            end
          else
            (Py.Ret (mkValidationResult true None (Some expected_result)
                       (Some expected_cols) None),
             sent ++ [reference_solution])
      end
  end.

End Sqlite.

(** *** The PostgreSQL backend

    [D] is the content of the shared database. The connection is not in
    autocommit mode, so every statement runs inside the transaction the
    driver opened: a session is the pair of the committed content and the
    content as the transaction sees it. A statement text may itself close
    the transaction (it can hold several commands, [COMMIT] among them);
    the server then makes the transaction's view the committed content,
    or drops it. Everything a statement does is taken to belong to the
    transaction: what PostgreSQL never rolls back, such as the advance of a
    sequence by [nextval] or [setval], is not part of [D]. *)
Section Postgres.

Variable D : Type.

Inductive TxnEnd := Commits | RollsBack.

Record PgExec := mkPgExec {
  pg_result : Exec;
  pg_view : D;                     (* the transaction's view afterwards *)
  pg_ends : option TxnEnd          (* the text closed the transaction *)
}.

Variable pg_run : D -> string -> PgExec.
Variable connect_error : option string.   (* psycopg2.connect fails *)

Record Session := mkSession { committed : D; view : D }.

(** [cursor.execute(statement)] on the open connection. *)
Definition pg_execute (st : Session) (statement : string) : Session * Exec :=
  if decide (statement = "BEGIN;") then (st, ExecDone None [])
  else if decide (statement = "ROLLBACK;")
  then (mkSession (committed st) (committed st), ExecDone None [])
  else
    let r := pg_run (view st) statement in
    (match pg_ends r with
     | None => mkSession (committed st) (pg_view r)
     | Some Commits => mkSession (pg_view r) (pg_view r)
     | Some RollsBack => mkSession (committed st) (committed st)
     end, pg_result r).

(** [conn.close()]: the server drops what the open transaction did. *)
Definition pg_close (st : Session) : D := committed st.

Fixpoint pg_schema (st : Session) (schema_setup : list string)
  : Session * option string * list string :=
  match schema_setup with
  | [] => (st, None, [])
  | statement :: rest =>
      if Str.strip_nonempty statement then
        match pg_execute st statement with
        | (st', ExecError msg) => (st', Some msg, [statement])
        | (st', ExecDone _ _) =>
            let '(st'', e, sent) := pg_schema st' rest in
            (st'', e, statement :: sent)
        end
      else pg_schema st rest
  end.

Record PgOutcome := mkPgOutcome {
  pg_returned : Py.Result ValidationResult;
  pg_database : D;                 (* the shared database afterwards *)
  pg_sent : list string            (* the statements sent, in order *)
}.

Definition no_results : string := "no results to fetch".

(** [validate_with_postgres(schema_setup, reference_solution, user_query,
    expected_output)] on a database whose content is [db]. *)
Definition validate_with_postgres (db : D) (schema_setup : list string)
           (reference_solution user_query : string) : PgOutcome :=
  match connect_error with
  | Some msg => mkPgOutcome (Py.Ret (failure ("PostgreSQL Error: " +:+ msg))) db []
  | None =>
      let '(st0, _) := pg_execute (mkSession db db) "BEGIN;" in
      let '(st1, e, sent) := pg_schema st0 schema_setup in
      match e with
      | Some msg =>
          mkPgOutcome (Py.Ret (failure ("PostgreSQL Error: " +:+ msg))) (pg_close st1)
                      ("BEGIN;" :: sent)
      | None =>
          let sent_ref := "BEGIN;" :: sent ++ [reference_solution] in
          match pg_execute st1 reference_solution with
          | (st2, ExecError msg) =>
              mkPgOutcome (Py.Ret (failure ("PostgreSQL Error: " +:+ msg)))
                          (pg_close st2) sent_ref
          | (st2, ExecDone None _) =>
              mkPgOutcome (Py.Ret (failure ("PostgreSQL Error: " +:+ no_results)))
                          (pg_close st2) sent_ref
          | (st2, ExecDone (Some expected_cols) expected_result) =>
              let '(st3, result, sent_user) :=
                if nonempty user_query then
                  match pg_execute st2 user_query with
                  | (st3, ExecError msg) =>
                      (st3, Py.Ret (mkValidationResult false None (Some expected_result)
                                      (Some expected_cols) (Some ("SQL Error: " +:+ msg))),
                       [user_query])
                  | (st3, ExecDone None _) =>
                      (st3, Py.Ret (mkValidationResult false None (Some expected_result)
                                      (Some expected_cols)
                                      (Some ("SQL Error: " +:+ no_results))),
                       [user_query])
                  | (st3, ExecDone (Some user_cols) user_result) =>
                      (st3, compared user_result user_cols expected_result expected_cols,
                       [user_query])
                  end
                else
                  (st2, Py.Ret (mkValidationResult true None (Some expected_result)
                                  (Some expected_cols) None), [])
              in
              match result with
              | Py.Raise e =>
                  (* a [TypeError] of the comparison is not a [psycopg2.Error]:
                     it leaves the function past the [ROLLBACK;], through
                     the [finally] clause that closes the connection *)
                  mkPgOutcome (Py.Raise e) (pg_close st3) (sent_ref ++ sent_user)
              | Py.Ret _ =>
                  let '(st4, _) := pg_execute st3 "ROLLBACK;" in
                  mkPgOutcome result (pg_close st4) (sent_ref ++ sent_user ++ ["ROLLBACK;"])
              end
          end
      end
  end.

End Postgres.

End Validator.
End Capsule.

(** ** Concrete inputs used below *)
Module Examples.

(** A C# source with its own [Main], and a Go program. *)
Definition csharp_program : string :=
  "class P { static void Main() { System.Console.WriteLine(1); } }".

Definition go_program : string :=
  "package main" +:+ Str.nl +:+ "func main() {}".

Definition go_program_without_package : string := "func main() {}".

(** Two complete programs whose entry point is not spelled the way the
    adapters look for it: a C# [Main] that returns [int], and a Go [main]
    with a space before its parameter list. *)
Definition csharp_program_returning_int : string :=
  "class P { static int Main() { return 0; } }".

Definition go_program_with_space : string :=
  "package main" +:+ Str.nl +:+ "func main () {}".

(** A program that never exits and has forked a child of its own that
    never exits either; it has printed [partial] by the time it is killed. *)
Definition runaway : Proc.Program :=
  Proc.mkProgram None 0 "partial" EmptyString 0 [Proc.mkDescendant 43 None true].

(** A program that never exits and takes five seconds to die once killed. *)
Definition stuck : Proc.Program :=
  Proc.mkProgram None 0 EmptyString EmptyString 5 [].

(** A program that prints [hi] and exits with status 0 after one second. *)
Definition hello : Proc.Program :=
  Proc.mkProgram (Some 1) 0 "hi" EmptyString 0 [].

(** A build that fails with its diagnostics on stdout, as [dotnet build]
    prints them, and nothing on stderr. *)
Definition failing_build : Proc.Program :=
  Proc.mkProgram (Some 3) 1 "Program.cs(1,9): error CS1002: ; expected" EmptyString 0 [].

Definition csharp_world : CSharp.World :=
  CSharp.mkWorld None (fun _ => None)
                 (fun _ => Proc.Launched 7 failing_build)
                 (fun _ _ => Proc.Launched 8 hello).

Definition csharp_request : Request := mkRequest "int x = " EmptyString (Some (Int 10)).

Definition java_source : string :=
  "public class Hello {" +:+ Str.nl +:+
  "  public static void main(String[] args) { int x = }" +:+ Str.nl +:+
  "}".

Definition failing_javac : Proc.Program :=
  Proc.mkProgram (Some 2) 1 EmptyString "Hello.java:2: error: illegal start of expression"
                 0 [].

(** A machine on which javac rejects the source; the judge is run as a
    script, so the name [time] is bound. *)
Definition java_world : JavaJudge.World :=
  JavaJudge.mkWorld (fun _ _ => None)
                    (fun _ _ => Proc.Launched 7 failing_javac)
                    (fun _ _ _ => Proc.Launched 8 hello)
                    true.

(** The same machine with the module imported, as the Lambda runtime
    does. *)
Definition java_imported_world : JavaJudge.World :=
  JavaJudge.mkWorld (fun _ _ => None)
                    (fun _ _ => Proc.Launched 7 failing_javac)
                    (fun _ _ _ => Proc.Launched 8 hello)
                    false.

Definition java_request : JavaJudge.Request :=
  JavaJudge.mkRequest java_source EmptyString (Some 5%Z) None.



(** A few of the names the interpreter's builtins module holds. *)
Definition interpreter_builtins : gmap string PythonJudge.PyVal :=
  list_to_map ((fun n => (n, PythonJudge.Builtin n))
                 <$> ["open"; "__import__"; "eval"; "exec"; "compile"; "print"; "len"]).

(** Integers can be hashed. *)
#[global] Instance Z_hashable : Capsule.Hashable Z := fun _ => None.

(** A small SQLite engine over one table [t] with one integer column
    [a]; the database is the list of the values stored. *)
Definition a_row (n : Z) : gmap string Z := {[ "a" := n ]}.

Definition toy_sqlite (db : list Z) (statement : string) : list Z * @Capsule.Exec Z :=
  if decide (statement = "CREATE TABLE t (a INTEGER)")
  then (db, Capsule.ExecDone None [])
  else if decide (statement = "INSERT INTO t VALUES (1)")
  then (db ++ [1%Z], Capsule.ExecDone None [])
  else if decide (statement = "SELECT a FROM t")
  then (db, Capsule.ExecDone (Some ["a"]) (a_row <$> db))
  else if decide (statement = "SELECT a FROM t UNION ALL SELECT a FROM t")
  then (db, Capsule.ExecDone (Some ["a"]) (a_row <$> db ++ db))
  else if decide (statement = "DROP TABLE t")
  then ([], Capsule.ExecDone None [])
  else (db, Capsule.ExecError "syntax error").

Definition toy_schema : list string :=
  ["CREATE TABLE t (a INTEGER)"; "INSERT INTO t VALUES (1)"].

(** The same table behind PostgreSQL; one statement text inserts a row
    and commits. *)
Definition toy_postgres (view : list Z) (statement : string) : @Capsule.PgExec Z (list Z) :=
  if decide (statement = "CREATE TABLE t (a INTEGER)")
  then Capsule.mkPgExec (list Z) (Capsule.ExecDone None []) view None
  else if decide (statement = "SELECT a FROM t")
  then Capsule.mkPgExec (list Z) (Capsule.ExecDone (Some ["a"]) (a_row <$> view)) view None
  else if decide (statement = "INSERT INTO t VALUES (1)")
  then Capsule.mkPgExec (list Z) (Capsule.ExecDone None []) (view ++ [1%Z]) None
  else if decide (statement = "INSERT INTO t VALUES (1); COMMIT;")
  then Capsule.mkPgExec (list Z) (Capsule.ExecDone None []) (view ++ [1%Z])
                        (Some Capsule.Commits)
  else Capsule.mkPgExec (list Z) (Capsule.ExecError "syntax error") view None.

Definition sql_world : SqlJudge.World :=
  SqlJudge.mkWorld (fun _ _ => SqlJudge.mkQueryResult true "[]" 0 EmptyString) 5.

End Examples.

(** ** Further concrete inputs *)
Module Scenarios.

(** A Go tool chain whose build fails with a diagnostic on stderr. *)
Definition go_failing_build : Proc.Program :=
  Proc.mkProgram (Some 1) 2 EmptyString "./main.go:2:1: syntax error" 0 [].

Definition quick : Proc.Program :=
  Proc.mkProgram (Some 0) 0 EmptyString EmptyString 0 [].


Definition go_world : Go.World :=
  Go.mkWorld None (Proc.Launched 5 quick) (fun _ => None)
             (fun _ => Proc.Launched 7 go_failing_build)
             (fun _ _ => Proc.Launched 8 Examples.hello).

Definition go_request : Request := mkRequest "x :=" EmptyString (Some (Int 10)).

(** A C# tool chain that builds and runs the hello program. *)
Definition good_build : Proc.Program :=
  Proc.mkProgram (Some 3) 0 "Build succeeded." EmptyString 0 [].

Definition csharp_good_world : CSharp.World :=
  CSharp.mkWorld None (fun _ => None)
                 (fun _ => Proc.Launched 7 good_build)
                 (fun _ _ => Proc.Launched 8 Examples.hello).

(** A Java source with a class but without the main signature. *)
Definition java_without_main : string :=
  "public class Hello { void run() {} }".

(** A machine on which javac succeeds and the program never ends; the
    judge is run as a script. *)
Definition java_good_world : JavaJudge.World :=
  JavaJudge.mkWorld (fun _ _ => None)
                    (fun _ _ => Proc.Launched 7 quick)
                    (fun _ _ _ => Proc.Launched 8 Examples.runaway)
                    true.

(** The same machine with the module imported. *)
Definition java_good_imported_world : JavaJudge.World :=
  JavaJudge.mkWorld (fun _ _ => None)
                    (fun _ _ => Proc.Launched 7 quick)
                    (fun _ _ _ => Proc.Launched 8 Examples.runaway)
                    false.







(** The values of a PostgreSQL result: an integer, or an integer array,
    which the driver returns as a list. *)
Inductive PgVal := PgInt (z : Z) | PgArray (zs : list Z).

#[global] Instance PgVal_eq_dec : EqDecision PgVal.
Proof. solve_decision. Defined.

#[global] Instance PgVal_hashable : Capsule.Hashable PgVal :=
  fun v => match v with PgInt _ => None | PgArray _ => Some "list" end.

Definition tags_row : gmap string PgVal := {[ "id" := PgInt 1; "tags" := PgArray [1%Z; 2%Z] ]}.

(** A PostgreSQL server whose table [t] has an array column. *)
Definition array_postgres (view : unit) (statement : string) : @Capsule.PgExec PgVal unit :=
  if decide (statement = "SELECT id, tags FROM t")
  then Capsule.mkPgExec unit (Capsule.ExecDone (Some ["id"; "tags"]) [tags_row]) view None
  else Capsule.mkPgExec unit (Capsule.ExecError "syntax error") view None.

End Scenarios.

(* ==== Properties ==== *)

(** ** Strings: prefixes and substrings *)

Lemma app_cons (a : ascii) (s t : string) : String a s +:+ t = String a (s +:+ t).
Proof. reflexivity. Qed.

Lemma app_nil_l (t : string) : EmptyString +:+ t = t.
Proof. reflexivity. Qed.

Lemma app_assoc_str (a b c : string) : (a +:+ b) +:+ c = a +:+ b +:+ c.
Proof.
  induction a as [|x a IH]; [reflexivity|].
  rewrite !app_cons. by rewrite IH.
Qed.

Lemma startswith_app (p s t : string) :
  Str.startswith p s = true -> Str.startswith p (s +:+ t) = true.
Proof.
  revert s. induction p as [|a p IH]; intros s Hs; [by destruct (s +:+ t)|].
  destruct s as [|b s]; [discriminate|].
  rewrite app_cons. simpl in *. case_decide; [auto|discriminate].
Qed.

Lemma startswith_refl_app (p t : string) : Str.startswith p (p +:+ t) = true.
Proof.
  induction p as [|a p IH]; [by destruct t|].
  rewrite app_cons. simpl. by case_decide.
Qed.

Lemma contains_app_l (n s t : string) :
  Str.contains n s = true -> Str.contains n (s +:+ t) = true.
Proof.
  induction s as [|a s IH]; intros Hs.
  - simpl in Hs. destruct n; [|discriminate]. by destruct t.
  - rewrite app_cons. simpl in Hs. apply orb_true_iff in Hs as [Hs|Hs].
    + apply (startswith_app _ _ t) in Hs. rewrite app_cons in Hs.
      cbn [Str.contains]. by rewrite Hs.
    + cbn [Str.contains]. rewrite (IH Hs). apply orb_true_r.
Qed.

Lemma contains_app_r (n s t : string) :
  Str.contains n t = true -> Str.contains n (s +:+ t) = true.
Proof.
  intros Ht. induction s as [|a s IH]; [done|].
  rewrite app_cons. cbn [Str.contains]. rewrite IH. apply orb_true_r.
Qed.

Lemma contains_refl_app (n t : string) : Str.contains n (n +:+ t) = true.
Proof.
  destruct n as [|a n]; [by destruct t|].
  rewrite app_cons. cbn [Str.contains].
  rewrite <- app_cons, startswith_refl_app. done.
Qed.

(** ** Entry point wrapping *)

Lemma csharp_wrapper_has_main (body tail : string) :
  Str.contains "static void Main" (CSharp.wrapper_head +:+ body +:+ tail) = true.
Proof. apply contains_app_l. by vm_compute. Qed.

Lemma go_wrapper_has_main (body tail : string) :
  Str.contains "func main()" (Go.wrapper_head +:+ body +:+ tail) = true.
Proof. apply contains_app_l. by vm_compute. Qed.

Lemma go_wrapper_has_package (body tail : string) :
  Str.contains "package main" (Go.wrapper_head +:+ body +:+ tail) = true.
Proof. apply contains_app_l. by vm_compute. Qed.

Lemma csharp_wrapped_twice (code : string) :
  CSharp.wrapped_code (CSharp.wrapped_code code) = CSharp.wrapped_code code.
Proof.
  unfold CSharp.wrapped_code at 2 3.
  destruct (negb (Str.contains "static void Main" code)
            && negb (Str.contains "static async Task Main" code)) eqn:Hwrap.
  - unfold CSharp.wrapped_code. by rewrite csharp_wrapper_has_main.
  - unfold CSharp.wrapped_code. by rewrite Hwrap.
Qed.

Lemma go_wrapped_twice (code : string) :
  Go.wrapped_code (Go.wrapped_code code) = Go.wrapped_code code.
Proof.
  unfold Go.wrapped_code at 2 3.
  destruct (Str.contains "func main()" code) eqn:Hmain; simpl.
  - destruct (Str.contains "package main" code) eqn:Hpkg; simpl.
    + unfold Go.wrapped_code. by rewrite Hmain, Hpkg.
    + assert (Str.contains "func main()"
                ("package main" +:+ Str.nl +:+ Str.nl +:+ code) = true) as Hm
        by (do 3 apply contains_app_r; done).
      assert (Str.contains "package main"
                ("package main" +:+ Str.nl +:+ Str.nl +:+ code) = true) as Hp
        by apply contains_refl_app.
      unfold Go.wrapped_code. by rewrite Hm, Hp.
  - unfold Go.wrapped_code. by rewrite go_wrapper_has_main, go_wrapper_has_package.
Qed.

(** C9, counterexample. A C# program whose entry point is
    [static int Main()] and a Go program whose entry point is written
    [func main ()] are complete and runnable, but the adapters do not find
    the text they look for: both sources are wrapped, and what reaches the
    compiler starts with the synthetic wrapper and differs from the
    submission. *)
Lemma runnable_sources_are_wrapped :
  CSharp.has_main Examples.csharp_program_returning_int = false
  /\ CSharp.wrapped_code Examples.csharp_program_returning_int
     <> Examples.csharp_program_returning_int
  /\ Str.startswith CSharp.wrapper_head
       (CSharp.wrapped_code Examples.csharp_program_returning_int) = true
  /\ Str.contains "func main()" Examples.go_program_with_space = false
  /\ Go.wrapped_code Examples.go_program_with_space <> Examples.go_program_with_space
  /\ Str.startswith Go.wrapper_head (Go.wrapped_code Examples.go_program_with_space) = true.
Proof. repeat split; by vm_compute. Qed.

(** C9, as amended. A source that contains the text the adapter looks for
    ([static void Main] or [static async Task Main] for C#, [func main()]
    for Go) reaches the compiler unchanged, a Go source that lacks the text
    [package main] only getting that clause and a blank line put in front;
    every other source is put inside the synthetic wrapper, indented; and
    wrapping a prepared source again changes nothing, for both adapters and
    for every source. *)
Theorem wrapping_passes_runnable_sources_through (code : string) :
  (CSharp.has_main code = true -> CSharp.wrapped_code code = code)
  /\ (Str.contains "func main()" code = true -> Str.contains "package main" code = true ->
      Go.wrapped_code code = code)
  /\ (Str.contains "func main()" code = true -> Str.contains "package main" code = false ->
      Go.wrapped_code code = "package main" +:+ Str.nl +:+ Str.nl +:+ code)
  /\ (CSharp.has_main code = false ->
      CSharp.wrapped_code code
      = CSharp.wrapper_head +:+ indent_code code 8 +:+ CSharp.wrapper_tail)
  /\ (Str.contains "func main()" code = false ->
      Go.wrapped_code code = Go.wrapper_head +:+ indent_code code 4 +:+ Go.wrapper_tail)
  /\ CSharp.wrapped_code (CSharp.wrapped_code code) = CSharp.wrapped_code code
  /\ Go.wrapped_code (Go.wrapped_code code) = Go.wrapped_code code.
Proof.
  repeat split.
  - unfold CSharp.has_main, CSharp.wrapped_code.
    destruct (Str.contains "static void Main" code),
             (Str.contains "static async Task Main" code); simpl; intros; done.
  - intros Hmain Hpkg. unfold Go.wrapped_code. by rewrite Hmain, Hpkg.
  - intros Hmain Hpkg. unfold Go.wrapped_code. by rewrite Hmain, Hpkg.
  - unfold CSharp.has_main, CSharp.wrapped_code.
    destruct (Str.contains "static void Main" code),
             (Str.contains "static async Task Main" code); simpl; intros; done.
  - intros Hmain. unfold Go.wrapped_code. by rewrite Hmain.
  - apply csharp_wrapped_twice.
  - apply go_wrapped_twice.
Qed.

Lemma wrapping_passes_runnable_sources_through_witness :
  CSharp.wrapped_code Examples.csharp_program = Examples.csharp_program
  /\ Go.wrapped_code Examples.go_program = Examples.go_program
  /\ Go.wrapped_code Examples.go_program_without_package
     = "package main" +:+ Str.nl +:+ Str.nl +:+ Examples.go_program_without_package
  /\ CSharp.wrapped_code Examples.csharp_program_returning_int
     = CSharp.wrapper_head +:+ indent_code Examples.csharp_program_returning_int 8
       +:+ CSharp.wrapper_tail.
Proof.
  split; [|split; [|split]].
  - apply (proj1 (wrapping_passes_runnable_sources_through Examples.csharp_program)).
    reflexivity.
  - apply (proj1 (proj2 (wrapping_passes_runnable_sources_through Examples.go_program)));
      reflexivity.
  - apply (proj1 (proj2 (proj2 (wrapping_passes_runnable_sources_through
                                  Examples.go_program_without_package))));
      reflexivity.
  - apply (proj1 (proj2 (proj2 (proj2 (wrapping_passes_runnable_sources_through
                                         Examples.csharp_program_returning_int)))));
      reflexivity.
Defined.

(** ** The run step of the container handlers *)

Lemma go_run_is_csharp_run (l : Proc.Launch) (t : Z) :
  Go.execute_with_timeout l t = CSharp.execute_with_timeout l t.
Proof. reflexivity. Qed.

Lemma latest_ge_head (e : option nat) (rest : list (option nat)) (m : nat) :
  Proc.latest (e :: rest) = Some m -> exists e', e = Some e' /\ e' <= m.
Proof.
  destruct e as [e'|]; [|done]. cbn [Proc.latest].
  destruct (Proc.latest rest) as [m'|]; [|done]. intros [= <-]. exists e'. split; [done|lia].
Qed.

(** A child that is still running at the ceiling keeps the pipes open. *)
Lemma never_completes (p : Proc.Program) (t : Z) :
  Proc.finishes_within p t = false -> Proc.completes_within p t = false.
Proof.
  unfold Proc.finishes_within, Proc.completes_within, Proc.pipes_closed_at. intros Hfin.
  destruct (Proc.latest _) as [m|] eqn:Hm; [|done].
  apply latest_ge_head in Hm as (e & He & Hle). rewrite He in Hfin.
  apply Z.ltb_ge in Hfin. apply Z.ltb_ge. lia.
Qed.

Lemma syscalls_by_no_killpg (T : nat) (l : Proc.Launch) (t : Z) (g : nat) :
  Proc.SysKillpg g ∉ Proc.syscalls_by T (Proc.run_syscalls (Proc.subprocess_run l t)).
Proof.
  unfold Proc.syscalls_by. intros Hin.
  apply list_elem_of_fmap in Hin as [[t' c] [Hc Hin]]. simpl in Hc. subst c.
  apply list_elem_of_In, filter_In in Hin as [Hin _]. apply list_elem_of_In in Hin.
  destruct l as [msg|pid p]; simpl in Hin; [by apply elem_of_nil in Hin|].
  destruct (Proc.completes_within p t), (Proc.finishes_within p t); simpl in Hin;
    repeat (apply elem_of_cons in Hin as [Hin|Hin]; [by inversion Hin|]);
    by apply elem_of_nil in Hin.
Qed.

(** C1, counterexample. Under a 2 second ceiling a program that never exits
    and has forked a child of its own is reported as timed out, and when
    the call returns that child (pid 43) is still running; no signal went
    to a process group. *)
Lemma orphan_outlives_timed_out_run :
  let f := CSharp.execute_with_timeout (Proc.Launched 42 Examples.runaway) 2 in
  timeout (fin_result f) = true
  /\ fin_alive f = [43]
  /\ fin_alive (Go.execute_with_timeout (Proc.Launched 42 Examples.runaway) 2) = [43]
  /\ fin_syscalls f = [Proc.SysFork 42; Proc.SysKill 42; Proc.SysWait 42].
Proof. by vm_compute. Qed.

(** C1, as amended. No path of [execute_with_timeout] signals a process
    group. When the ceiling expires the spawned child alone is killed and
    waited for, and the call reports a timeout; if the child is gone within
    the extra second of the join, the processes left in the table at return
    are exactly those forked by the child that have not ended by
    themselves; if it takes longer the call returns all the same, with the
    child still in the table. The C# and the Go handler agree. *)
Theorem run_timeout_kills_the_child_only (pid : nat) (p : Proc.Program) (t : Z) (g : nat) :
  let l := Proc.Launched pid p in
  let f := CSharp.execute_with_timeout l t in
  Go.execute_with_timeout l t = f
  /\ (Proc.SysKillpg g ∉ fin_syscalls f)
  /\ (Proc.finishes_within p t = false -> (0 <= t)%Z -> Proc.reap_delay p <= 1 ->
      timeout (fin_result f) = true
      /\ fin_syscalls f = [Proc.SysFork pid; Proc.SysKill pid; Proc.SysWait pid]
      /\ fin_alive f
         = map Proc.d_pid (List.filter (Proc.descendant_alive (fin_time f)) (Proc.descendants p)))
  /\ (Proc.finishes_within p t = false -> (0 <= t)%Z -> 1 < Proc.reap_delay p ->
      timeout (fin_result f) = true /\ pid ∈ fin_alive f).
Proof.
  intros l f. split; [reflexivity|]. split; [|split].
  - subst f. unfold CSharp.execute_with_timeout.
    destruct (_ && _); cbn [fin_syscalls]; apply syscalls_by_no_killpg.
  - intros Hfin Ht Hreap. subst f l. unfold CSharp.execute_with_timeout.
    assert (Proc.child_gone_at p t = Z.to_nat t + Proc.reap_delay p) as Hgone.
    { unfold Proc.child_gone_at. unfold Proc.finishes_within in Hfin.
      destruct (Proc.exits_at p); [by rewrite Hfin|done]. }
    assert (Proc.subprocess_run (Proc.Launched pid p) t
            = Proc.mkRun (Proc.TimeoutExpired (Proc.out p) (Proc.err p))
                (Z.to_nat t + Proc.reap_delay p)
                [(0, Proc.SysFork pid); (Z.to_nat t, Proc.SysKill pid);
                 (Z.to_nat t + Proc.reap_delay p, Proc.SysWait pid)]) as ->.
    { unfold Proc.subprocess_run. by rewrite (never_completes p t Hfin), Hfin, Hgone. }
    cbn [Proc.run_end Proc.run_outcome Proc.run_syscalls].
    assert ((0 <? t + 1)%Z = true) as -> by (apply Z.ltb_lt; lia).
    assert ((Z.to_nat t + Proc.reap_delay p <=? Z.to_nat (t + 1)) = true) as ->
      by (apply Nat.leb_le; lia).
    cbn [andb fin_result fin_syscalls fin_alive fin_time CSharp.run_csharp Proc.run_outcome timeout].
    split; [done|]. split.
    + unfold Proc.syscalls_by. cbn [List.filter fst].
      assert ((Z.to_nat t <=? Z.to_nat t + Proc.reap_delay p) = true) as ->
        by (apply Nat.leb_le; lia).
      by rewrite Nat.leb_refl.
    + unfold Proc.alive_at. by rewrite Hgone, Nat.leb_refl.
  - intros Hfin Ht Hreap. subst f l. unfold CSharp.execute_with_timeout.
    assert (Proc.child_gone_at p t = Z.to_nat t + Proc.reap_delay p) as Hgone.
    { unfold Proc.child_gone_at. unfold Proc.finishes_within in Hfin.
      destruct (Proc.exits_at p); [by rewrite Hfin|done]. }
    assert (Proc.run_end (Proc.subprocess_run (Proc.Launched pid p) t)
            = Z.to_nat t + Proc.reap_delay p) as ->.
    { unfold Proc.subprocess_run. by rewrite (never_completes p t Hfin), Hfin, Hgone. }
    assert ((Z.to_nat t + Proc.reap_delay p <=? Z.to_nat (t + 1)) = false) as ->
      by (apply Nat.leb_gt; lia).
    rewrite andb_false_r.
    cbn [fin_result fin_alive timeout]. split; [done|].
    unfold Proc.alive_at. rewrite Hgone.
    assert ((Z.to_nat t + Proc.reap_delay p <=? Z.to_nat (t + 1)) = false) as ->
      by (apply Nat.leb_gt; lia).
    apply elem_of_app. left. apply list_elem_of_singleton. done.
Qed.

Lemma run_timeout_kills_the_child_only_witness :
  let f := CSharp.execute_with_timeout (Proc.Launched 42 Examples.runaway) 2 in
  (timeout (fin_result f) = true
   /\ fin_syscalls f = [Proc.SysFork 42; Proc.SysKill 42; Proc.SysWait 42]
   /\ fin_alive f = map Proc.d_pid (List.filter (Proc.descendant_alive (fin_time f))
                                                (Proc.descendants Examples.runaway)))
  /\ 42 ∈ fin_alive (CSharp.execute_with_timeout (Proc.Launched 42 Examples.stuck) 2).
Proof.
  split.
  - apply (proj1 (proj2 (proj2 (run_timeout_kills_the_child_only 42 Examples.runaway 2 0))));
      [reflexivity|lia|simpl; lia].
  - apply (proj2 (proj2 (proj2 (run_timeout_kills_the_child_only 42 Examples.stuck 2 0))));
      [reflexivity|lia|simpl; lia].
Defined.

(** ** Ceilings *)

(** C6, counterexample. A client value of 0 is used as it is by the Java
    judge (time and memory), a negative one by the Python judge, and the
    C# container turns 30 seconds, a value inside the range, into 25. *)
Lemma low_ceilings_are_not_raised :
  JavaJudge.time_limit_used (JavaJudge.mkRequest "x" EmptyString (Some 0%Z) (Some 0%Z)) = 0%Z
  /\ JavaJudge.memory_limit_used (JavaJudge.mkRequest "x" EmptyString (Some 0%Z) (Some 0%Z)) = 0%Z
  /\ PythonJudge.timeout_seconds (PythonJudge.mkRequest "x" None (Some (-5)%Z)) = (-5)%Z
  /\ CSharp.timeout_seconds (mkRequest "x" EmptyString (Some (Int 30))) = 25%Z
  /\ ~ (1 <= JavaJudge.time_limit_used
               (JavaJudge.mkRequest "x" EmptyString (Some 0%Z) (Some 0%Z)) <= 30)%Z.
Proof. repeat split; try reflexivity. vm_compute. intros [Hlo _]. by apply Hlo. Qed.

(** C6, as amended. The ceiling computed from an integer client value is
    the smaller of the value and the cap, and nothing else: the cap is 30
    seconds in the Java and Python judges, 25 seconds in the C# and Go
    containers and 512 MB for the Java heap; a value above the cap gives
    the cap, a value at or below it, zero and negative ones included, is
    kept as it is. The containers first pass the value through [int], so a
    float is truncated towards zero before it is capped. An absent value
    is 10, 10, 25 and 128. *)
Theorem ceilings_are_capped_from_above_only
        (jreq : JavaJudge.Request) (preq : PythonJudge.Request) (creq : Request) :
  ((forall t, JavaJudge.time_limit jreq = Some t ->
      JavaJudge.time_limit_used jreq = Z.min t 30
      /\ (30 < t -> JavaJudge.time_limit_used jreq = 30)
      /\ (t <= 30 -> JavaJudge.time_limit_used jreq = t))
   /\ (forall m, JavaJudge.memory_limit jreq = Some m ->
         JavaJudge.memory_limit_used jreq = Z.min m 512
         /\ (512 < m -> JavaJudge.memory_limit_used jreq = 512)
         /\ (m <= 512 -> JavaJudge.memory_limit_used jreq = m))
   /\ (forall t, PythonJudge.timeout preq = Some t ->
         PythonJudge.timeout_seconds preq = Z.min t 30
         /\ (30 < t -> PythonJudge.timeout_seconds preq = 30)
         /\ (t <= 30 -> PythonJudge.timeout_seconds preq = t))
   /\ (forall t, req_timeout creq = Some (Int t) ->
         CSharp.timeout_seconds creq = Z.min t 25
         /\ (25 < t -> CSharp.timeout_seconds creq = 25)
         /\ (t <= 25 -> CSharp.timeout_seconds creq = t))
   /\ (forall n d, req_timeout creq = Some (Float n d) ->
         CSharp.timeout_seconds creq = Z.min (Z.quot n (Z.pos d)) 25)
   /\ Go.timeout_seconds creq = CSharp.timeout_seconds creq
   /\ (JavaJudge.time_limit jreq = None -> JavaJudge.time_limit_used jreq = 10)
   /\ (JavaJudge.memory_limit jreq = None -> JavaJudge.memory_limit_used jreq = 128)
   /\ (PythonJudge.timeout preq = None -> PythonJudge.timeout_seconds preq = 10)
   /\ (req_timeout creq = None -> CSharp.timeout_seconds creq = 25))%Z.
Proof.
  unfold JavaJudge.time_limit_used, JavaJudge.memory_limit_used,
         PythonJudge.timeout_seconds, CSharp.timeout_seconds, Go.timeout_seconds.
  repeat split; intros;
    repeat match goal with H : _ = Some _ |- _ => rewrite H | H : _ = None |- _ => rewrite H end;
    cbn [default from_option id int];
    first [reflexivity | lia].
Qed.

Lemma ceilings_are_capped_from_above_only_witness :
  (JavaJudge.time_limit_used (JavaJudge.mkRequest "x" EmptyString (Some (-3)%Z) None) = -3
   /\ JavaJudge.memory_limit_used (JavaJudge.mkRequest "x" EmptyString (Some (-3)%Z) None) = 128
   /\ PythonJudge.timeout_seconds (PythonJudge.mkRequest "x" None (Some 45%Z)) = 30
   /\ CSharp.timeout_seconds (mkRequest "x" EmptyString (Some (Int 7))) = 7
   /\ CSharp.timeout_seconds (mkRequest "x" EmptyString (Some (Float 5 2))) = 2)%Z.
Proof.
  pose proof (ceilings_are_capped_from_above_only
                (JavaJudge.mkRequest "x" EmptyString (Some (-3)%Z) None)
                (PythonJudge.mkRequest "x" None (Some 45%Z))
                (mkRequest "x" EmptyString (Some (Int 7))))
    as (Ht & _ & Hp & Hc & _ & _ & _ & Hm & _).
  pose proof (ceilings_are_capped_from_above_only
                (JavaJudge.mkRequest "x" EmptyString None None)
                (PythonJudge.mkRequest "x" None None)
                (mkRequest "x" EmptyString (Some (Float 5 2))))
    as (_ & _ & _ & _ & Hf & _).
  split; [|split; [|split; [|split]]].
  - apply (Ht (-3)%Z eq_refl). lia.
  - apply Hm. reflexivity.
  - apply (Hp 45%Z eq_refl). lia.
  - apply (Hc 7%Z eq_refl). lia.
  - apply (Hf 5%Z 2%positive eq_refl).
Defined.

(** ** Exceptions raised inside [exec] *)









(** ** Outcome of a run whose ceiling expires *)

Lemma timed_out_run (pid : nat) (p : Proc.Program) (t : Z) :
  Proc.finishes_within p t = false ->
  Proc.subprocess_run (Proc.Launched pid p) t
  = Proc.mkRun (Proc.TimeoutExpired (Proc.out p) (Proc.err p))
               (Z.to_nat t + Proc.reap_delay p)
               [(0, Proc.SysFork pid); (Z.to_nat t, Proc.SysKill pid);
                (Z.to_nat t + Proc.reap_delay p, Proc.SysWait pid)].
Proof.
  intros Hfin. unfold Proc.subprocess_run, Proc.child_gone_at.
  rewrite (never_completes p t Hfin), Hfin.
  unfold Proc.finishes_within in Hfin.
  destruct (Proc.exits_at p); [by rewrite Hfin|done].
Qed.





(** ** A failing compile step *)

(** C8, counterexample. A C# build that exits with status 1 after printing
    its diagnostics on stdout: the run command is not started and stdout is
    empty, but the diagnostics of the response are the fixed heading alone,
    not the output of the build. *)
Lemma build_diagnostics_on_stdout_are_lost :
  let build := Proc.subprocess_run
                 (CSharp.dotnet_build Examples.csharp_world
                    (CSharp.wrapped_code (req_code Examples.csharp_request))) 15 in
  let answer := CSharp.lambda_handler Examples.csharp_world Examples.csharp_request in
  Proc.run_outcome build
  = Proc.Completed 1 "Program.cs(1,9): error CS1002: ; expected" EmptyString
  /\ body_execution_stderr (fst answer) = "Compilation error:" +:+ Str.nl
  /\ body_execution_stderr (fst answer)
     <> "Program.cs(1,9): error CS1002: ; expected" +:+ EmptyString
  /\ snd answer = [CSharp.rm_cmd; CSharp.build_cmd].
Proof. repeat split; try reflexivity. by vm_compute. Qed.

(** C8, as amended. When the compile step exits with a status other than
    zero the handlers stop there. The C# container starts no run command
    and answers 400 with an empty stdout and, as diagnostics, the heading
    [Compilation error:] followed by the stderr of the build; what the
    build wrote on stdout is not passed on. The Java judge does not enter
    the execute phase, whether or not the name [time] is bound; with the
    name bound it answers 400 [Compilation failed] with [compile_output]
    equal to the stdout of javac followed by its stderr, and with no stdout
    key. *)
Theorem failed_compile_halts_the_pipeline :
  (forall (w : CSharp.World) (req : Request) (rc : Z) (o e : string),
     Str.strip_nonempty (req_code req) = true ->
     CSharp.makedirs_workspace w = None ->
     CSharp.write_project w (CSharp.wrapped_code (req_code req)) = None ->
     Proc.run_outcome
       (Proc.subprocess_run (CSharp.dotnet_build w (CSharp.wrapped_code (req_code req))) 15)
     = Proc.Completed rc o e ->
     rc <> 0%Z ->
     CSharp.lambda_handler w req
     = (create_response false EmptyString ("Compilation error:" +:+ Str.nl +:+ e) 400,
        [CSharp.rm_cmd; CSharp.build_cmd])
     /\ (CSharp.run_cmd ∉ snd (CSharp.lambda_handler w req))
     /\ body_stdout (fst (CSharp.lambda_handler w req)) = EmptyString)
  /\ (forall (w : JavaJudge.World) (tb : string) (req : JavaJudge.Request)
             (main_class : string) (rc : Z) (o e : string),
        nonempty (Str.strip (JavaJudge.source_code req)) = true ->
        JavaJudge.extract_main_class (Str.strip (JavaJudge.source_code req)) = Some main_class ->
        nonempty main_class = true ->
        JavaJudge.write_source w (main_class +:+ ".java") (Str.strip (JavaJudge.source_code req))
        = None ->
        Proc.run_outcome
          (Proc.subprocess_run
             (JavaJudge.javac w (main_class +:+ ".java") (Str.strip (JavaJudge.source_code req)))
             (JavaJudge.time_limit_used req))
        = Proc.Completed rc o e ->
        rc <> 0%Z ->
        snd (JavaJudge.lambda_handler w tb req) = [JavaJudge.PhaseCompile]
        /\ (JavaJudge.time_bound w = true ->
            fst (JavaJudge.lambda_handler w tb req)
            = Py.Ret (JavaJudge.mkResponse 400 "Compilation failed" (Some (o +:+ e))
                                           None None None None None None))).
Proof.
  split.
  - intros w req rc o e Hcode Hmk Hwr Hbuild Hrc.
    assert (CSharp.lambda_handler w req
            = (create_response false EmptyString ("Compilation error:" +:+ Str.nl +:+ e) 400,
               [CSharp.rm_cmd; CSharp.build_cmd])) as Heq.
    { unfold CSharp.lambda_handler, CSharp.execute_csharp_code.
      rewrite Hcode, Hmk, Hwr, Hbuild. cbn [negb].
      destruct (Z.eqb_spec rc 0); [done|]. reflexivity. }
    rewrite Heq. split; [done|]. split; [|done].
    cbn [snd]. intros Hin.
    repeat (apply elem_of_cons in Hin as [Hin|Hin]; [discriminate|]).
    by apply elem_of_nil in Hin.
  - intros w tb req main_class rc o e Hsrc Hmain Hne Hwr Hjavac Hrc.
    unfold JavaJudge.lambda_handler, JavaJudge.handler_body.
    rewrite Hsrc, Hmain, Hne, Hwr. cbn [negb].
    unfold JavaJudge.compile_java. rewrite Hjavac.
    destruct (Z.eqb_spec rc 0); [done|]. cbn [JavaJudge.c_success negb].
    unfold JavaJudge.create_response.
    destruct (JavaJudge.time_bound w); cbn; split; done.
Qed.

Lemma failed_compile_halts_the_pipeline_witness :
  (CSharp.run_cmd ∉ snd (CSharp.lambda_handler Examples.csharp_world Examples.csharp_request))
  /\ JavaJudge.lambda_handler Examples.java_world "traceback" Examples.java_request
     = (Py.Ret (JavaJudge.mkResponse 400 "Compilation failed"
                  (Some "Hello.java:2: error: illegal start of expression")
                  None None None None None None),
        [JavaJudge.PhaseCompile])
  /\ snd (JavaJudge.lambda_handler Examples.java_imported_world "traceback"
            Examples.java_request)
     = [JavaJudge.PhaseCompile].
Proof.
  destruct failed_compile_halts_the_pipeline as [Hcs Hjava]. split; [|split].
  - apply (Hcs Examples.csharp_world Examples.csharp_request 1%Z
               "Program.cs(1,9): error CS1002: ; expected" EmptyString);
      [reflexivity|reflexivity|reflexivity|by vm_compute|discriminate].
  - destruct (Hjava Examples.java_world "traceback" Examples.java_request "Hello" 1%Z
                    EmptyString "Hello.java:2: error: illegal start of expression")
      as [Hphases Hanswer];
      [reflexivity|by vm_compute|reflexivity|reflexivity|by vm_compute|discriminate|].
    rewrite (surjective_pairing (JavaJudge.lambda_handler _ _ _)).
    by rewrite Hphases, (Hanswer eq_refl).
  - apply (Hjava Examples.java_imported_world "traceback" Examples.java_request "Hello" 1%Z
                 EmptyString "Hello.java:2: error: illegal start of expression");
      [reflexivity|by vm_compute|reflexivity|reflexivity|by vm_compute|discriminate].
Defined.

(** ** The namespace of the restricted interpreter path *)

Lemma no_builtins_key (test_input : option string) :
  PythonJudge.restricted_globals test_input !! "__builtins__" = None.
Proof.
  destruct test_input as [t|]; simpl.
  - rewrite lookup_insert_ne by done. by vm_compute.
  - by vm_compute.
Qed.

(** Whatever the builtins module holds under a name the dictionary does
    not define is what the submitted code gets for that name. *)
Lemma builtins_resolve_through_exec (builtins : gmap string PythonJudge.PyVal)
      (test_input : option string) (name : string) :
  PythonJudge.restricted_globals test_input !! name = None ->
  name <> "__builtins__" ->
  PythonJudge.resolve builtins
    (PythonJudge.exec_globals (PythonJudge.restricted_globals test_input)) name
  = builtins !! name.
Proof.
  intros Hname Hne. unfold PythonJudge.exec_globals, PythonJudge.resolve.
  rewrite no_builtins_key.
  rewrite lookup_insert_ne by done. rewrite Hname.
  by rewrite lookup_insert_eq.
Qed.

(** The keys of the dictionary built by the handler. *)
Lemma restricted_globals_keys :
  dom (PythonJudge.restricted_globals None)
  = list_to_set (PythonJudge.safe_builtin_names ++ PythonJudge.safe_module_names).
Proof. by vm_compute. Qed.

(** C3, the code at the failing input. The dictionary handed to [exec] has
    no entry for [open] or [__import__] and no [__builtins__] key, so
    [exec] stores the reference to the builtins module in it, and both
    names resolve to the interpreter's own objects. *)
Theorem builtins_leak_into_restricted_namespace :
  PythonJudge.restricted_globals None !! "open" = None
  /\ PythonJudge.restricted_globals None !! "__import__" = None
  /\ PythonJudge.restricted_globals None !! "__builtins__" = None
  /\ PythonJudge.exec_globals (PythonJudge.restricted_globals None) !! "__builtins__"
     = Some PythonJudge.BuiltinsRef
  /\ PythonJudge.resolve Examples.interpreter_builtins
       (PythonJudge.exec_globals (PythonJudge.restricted_globals None)) "open"
     = Some (PythonJudge.Builtin "open")
  /\ PythonJudge.available Examples.interpreter_builtins None "__import__" = true.
Proof.
  split; [by vm_compute|]. split; [by vm_compute|]. split; [apply no_builtins_key|].
  split.
  - unfold PythonJudge.exec_globals. rewrite no_builtins_key. by rewrite lookup_insert_eq.
  - split.
    + rewrite builtins_resolve_through_exec by (by vm_compute). by vm_compute.
    + unfold PythonJudge.available. apply bool_decide_eq_true.
      rewrite builtins_resolve_through_exec by (by vm_compute).
      eexists. by vm_compute.
Qed.

(** ** The deny-list screen of the SQL judge *)

Lemma upper_char_not_b (c : ascii) : Str.upper_char c <> "b"%char.
Proof. destruct c as [[] [] [] [] [] [] [] []]; by vm_compute. Qed.

Lemma lacks_upper (s : string) : Str.lacks "b" (Str.upper s) = true.
Proof.
  induction s as [|c s IH]; [done|]. simpl. rewrite IH.
  rewrite bool_decide_eq_false_2; [done|apply upper_char_not_b].
Qed.

Lemma lacks_lstrip (c : ascii) (s : string) :
  Str.lacks c s = true -> Str.lacks c (Str.lstrip s) = true.
Proof.
  induction s as [|a s IH]; [done|]. simpl. intros Hs.
  destruct (Str.isspace a); [|done].
  apply andb_true_iff in Hs as [_ Hs]. auto.
Qed.

Lemma lacks_rev_app (c : ascii) (s1 s2 : string) :
  Str.lacks c (String.rev_app s1 s2) = Str.lacks c s1 && Str.lacks c s2.
Proof.
  revert s2. induction s1 as [|a s1 IH]; intros s2; [done|].
  simpl. rewrite IH. simpl. by destruct (bool_decide (a = c)), (Str.lacks c s1).
Qed.

Lemma lacks_rev (c : ascii) (s : string) : Str.lacks c (String.rev s) = Str.lacks c s.
Proof. unfold String.rev. rewrite lacks_rev_app. simpl. apply andb_true_r. Qed.

Lemma lacks_strip (c : ascii) (s : string) :
  Str.lacks c s = true -> Str.lacks c (Str.strip s) = true.
Proof.
  intros Hs. unfold Str.strip, Str.rstrip.
  rewrite lacks_rev. apply lacks_lstrip. rewrite lacks_rev. by apply lacks_lstrip.
Qed.

(** A pattern whose second piece is the plain letter [b] matches nowhere
    in a text without that letter. *)
Lemma no_match_without_b (x : ascii) (ps : list Regex.Piece) (s : string) :
  Str.lacks "b" s = true ->
  Regex.match_anywhere (Regex.mkPiece x false :: Regex.mkPiece "b" false :: ps) s = false.
Proof.
  induction s as [|a s IH]; intros Hs; [done|].
  simpl in Hs. apply andb_true_iff in Hs as [_ Hs].
  cbn [Regex.match_anywhere]. rewrite (IH Hs), orb_false_r.
  cbn. case_decide; [|done].
  destruct s as [|a' s]; [done|].
  simpl in Hs. apply andb_true_iff in Hs as [Ha' _].
  apply negb_true_iff, bool_decide_eq_false in Ha'. by case_decide.
Qed.

Lemma statement_patterns_compile :
  Forall (fun st => SqlJudge.starts_with_backslash_b (SqlJudge.statement_pattern st))
         SqlJudge.dangerous_statements.
Proof. repeat constructor; eexists; by vm_compute. Qed.

Lemma statements_never_hit (reason_of : string -> string) (text : string) :
  Str.lacks "b" text = true ->
  SqlJudge.first_hit SqlJudge.statement_pattern reason_of SqlJudge.dangerous_statements text
  = Py.Ret None.
Proof.
  intros Htext. pose proof statement_patterns_compile as Hall.
  induction Hall as [|st sts [ps Hst] _ IH]; [done|].
  cbn [SqlJudge.first_hit]. unfold Regex.search. rewrite Hst.
  by rewrite no_match_without_b.
Qed.

Lemma functions_always_raise (reason_of : string -> string) (text : string) :
  SqlJudge.first_hit SqlJudge.function_pattern reason_of SqlJudge.dangerous_functions text
  = Py.Raise SqlJudge.unterminated.
Proof.
  unfold SqlJudge.dangerous_functions. cbn [SqlJudge.first_hit]. unfold Regex.search.
  assert (Regex.compile (SqlJudge.function_pattern "PG_SLEEP")
          = Regex.Error "missing ), unterminated subpattern" 17) as -> by (by vm_compute).
  by vm_compute.
Qed.

(** The screen gives no verdict on any query: no statement pattern can
    match an upper-cased text, and the first function pattern is not a
    regular expression. *)
Lemma screen_always_raises (query : string) :
  SqlJudge.validate_sql_security query = Py.Raise SqlJudge.unterminated.
Proof.
  unfold SqlJudge.validate_sql_security.
  rewrite statements_never_hit by apply lacks_strip, lacks_upper.
  by rewrite functions_always_raise.
Qed.

(** No query is ever handed to the database by the SQL judge. *)
Lemma sql_judge_never_reaches_database (w : SqlJudge.World) (event : SqlJudge.Event) :
  snd (SqlJudge.lambda_handler w event) = []
  /\ SqlJudge.b_success (SqlJudge.body (fst (SqlJudge.lambda_handler w event))) = false.
Proof.
  unfold SqlJudge.lambda_handler. rewrite screen_always_raises.
  destruct (negb _); [done|]. destruct (_ <? _)%Z; done.
Qed.

(** C2, the code at the failing inputs. The statement pattern built for
    [DROP] does not match the upper-cased query [DROP TABLE users]; the
    screen ends in an [re.error], and the SQL judge answers with
    [Query execution failed: ...] instead of a security violation naming
    the [DROP] rule. The capsule validator has no screen: the candidate
    query [DROP TABLE t] is sent to the engine like any other statement. *)
Theorem drop_statement_is_not_screened :
  Regex.search (SqlJudge.statement_pattern "DROP") (Str.strip (Str.upper "DROP TABLE users"))
  = Py.Ret false
  /\ SqlJudge.validate_sql_security "DROP TABLE users" = Py.Raise SqlJudge.unterminated
  /\ fst (SqlJudge.lambda_handler Examples.sql_world (SqlJudge.mkEvent "DROP TABLE users" None))
     = SqlJudge.create_error_response
         "Query execution failed: missing ), unterminated subpattern at position 17"
  /\ fst (SqlJudge.lambda_handler Examples.sql_world (SqlJudge.mkEvent "DROP TABLE users" None))
     <> SqlJudge.create_error_response
          "Security violation: DROP statements are not allowed in read-only mode"
  /\ Capsule.validate_with_sqlite (list Z) Examples.toy_sqlite [] Examples.toy_schema
       "SELECT a FROM t" "DROP TABLE t"
     = (Py.Raise Capsule.none_not_iterable,
        Examples.toy_schema ++ ["SELECT a FROM t"; "DROP TABLE t"]).
Proof. repeat split; by vm_compute. Qed.

(** ** Comparison of result sets *)

Lemma row_key_inj {V : Type} (r1 r2 : gmap string V) :
  Capsule.row_key r1 = Capsule.row_key r2 -> r1 = r2.
Proof.
  unfold Capsule.row_key. intros Heq. apply map_to_list_inj.
  pose proof (merge_sort_Permutation Capsule.key_le (map_to_list r1)) as H1.
  pose proof (merge_sort_Permutation Capsule.key_le (map_to_list r2)) as H2.
  rewrite Heq in H1. etrans; [symmetry; exact H1|exact H2].
Qed.

Lemma row_keys_subseteq {V : Type} (xs ys : list (gmap string V)) :
  Capsule.row_key <$> xs ⊆ Capsule.row_key <$> ys <-> xs ⊆ ys.
Proof.
  split; intros Hsub x Hx.
  - assert (Capsule.row_key x ∈ Capsule.row_key <$> ys) as Hin
      by (apply Hsub, list_elem_of_fmap; eauto).
    apply list_elem_of_fmap in Hin as (y & Hxy & Hy).
    by rewrite (row_key_inj _ _ Hxy).
  - apply list_elem_of_fmap in Hx as (x' & -> & Hx').
    apply list_elem_of_fmap. eauto.
Qed.

Lemma elem_of_row_key {V : Type} (row : gmap string V) (k : string) (v : V) :
  (k, v) ∈ Capsule.row_key row <-> row !! k = Some v.
Proof.
  unfold Capsule.row_key.
  rewrite (merge_sort_Permutation Capsule.key_le (map_to_list row)).
  apply elem_of_map_to_list.
Qed.

Lemma first_unhashable_none {V : Type} `{Capsule.Hashable V} (items : list (string * V)) :
  Capsule.first_unhashable items = None
  <-> forall k v, (k, v) ∈ items -> Capsule.unhashable v = None.
Proof.
  induction items as [|[k v] rest IH]; cbn [Capsule.first_unhashable].
  - split; [|done]. intros _ k v Hin. by apply elem_of_nil in Hin.
  - destruct (Capsule.unhashable v) as [ty|] eqn:Hv.
    + split; [done|]. intros Hall.
      specialize (Hall k v (list_elem_of_here _ _)). congruence.
    + rewrite IH. split.
      * intros Hall k' v' Hin. apply elem_of_cons in Hin as [[= -> ->]|Hin]; [done|].
        by apply (Hall k' v').
      * intros Hall k' v' Hin. apply (Hall k' v'). by apply list_elem_of_further.
Qed.

(** When every value can be hashed the set of the rows is built. *)
Lemma row_set_hashable {V : Type} `{Capsule.Hashable V} (rows : list (gmap string V)) :
  Capsule.hashable_rows rows -> Capsule.row_set rows = Py.Ret (Capsule.row_key <$> rows).
Proof.
  induction rows as [|row rest IH]; intros Hrows; [done|].
  cbn [Capsule.row_set].
  assert (Capsule.first_unhashable (Capsule.row_key row) = None) as ->.
  { apply first_unhashable_none. intros k v Hin. apply elem_of_row_key in Hin.
    apply (Hrows row k v); [apply list_elem_of_here|done]. }
  rewrite IH; [done|]. intros row' k v Hin. apply Hrows. by apply list_elem_of_further.
Qed.

(** A value that cannot be hashed makes the construction raise. *)
Lemma row_set_unhashable {V : Type} `{Capsule.Hashable V} (rows : list (gmap string V))
      (row : gmap string V) (k : string) (v : V) (type_name : string) :
  row ∈ rows -> row !! k = Some v -> Capsule.unhashable v = Some type_name ->
  exists type_name', Capsule.row_set rows = Py.Raise (Capsule.unhashable_type type_name').
Proof.
  intros Hin Hk Hv. induction rows as [|row' rest IH]; [by apply elem_of_nil in Hin|].
  cbn [Capsule.row_set].
  destruct (Capsule.first_unhashable (Capsule.row_key row')) as [ty|] eqn:Hfirst; [by eexists|].
  apply elem_of_cons in Hin as [->|Hin].
  - apply first_unhashable_none with (k := k) (v := v) in Hfirst; [congruence|].
    by apply elem_of_row_key.
  - destruct (IH Hin) as [ty ->]. by eexists.
Qed.

Lemma is_correct_hashable {V : Type} `{EqDecision V} `{Capsule.Hashable V}
      (user_result : list (gmap string V)) (user_cols : list string)
      (expected_result : list (gmap string V)) (expected_cols : list string) :
  Capsule.hashable_rows user_result -> Capsule.hashable_rows expected_result ->
  Capsule.is_correct user_result user_cols expected_result expected_cols
  = Py.Ret (let is_correct := Capsule.set_eq (Capsule.row_key <$> user_result)
                                             (Capsule.row_key <$> expected_result) in
            if is_correct && negb (bool_decide (user_cols = expected_cols))
            then false else is_correct).
Proof.
  intros Hu He. unfold Capsule.is_correct.
  by rewrite (row_set_hashable _ Hu), (row_set_hashable _ He).
Qed.

(** The comparison succeeds exactly when the two results hold the same
    rows, each counted once, and the column lists are equal. *)
Lemma is_correct_spec {V : Type} `{EqDecision V} `{Capsule.Hashable V}
      (user_result : list (gmap string V)) (user_cols : list string)
      (expected_result : list (gmap string V)) (expected_cols : list string) :
  Capsule.hashable_rows user_result -> Capsule.hashable_rows expected_result ->
  exists ok,
    Capsule.is_correct user_result user_cols expected_result expected_cols = Py.Ret ok
    /\ (ok = true
        <-> (forall row, row ∈ user_result <-> row ∈ expected_result)
            /\ user_cols = expected_cols).
Proof.
  intros Hu He. eexists. split; [by apply is_correct_hashable|].
  cbn zeta. unfold Capsule.set_eq.
  destruct (decide (user_cols = expected_cols)) as [Hcols|Hcols].
  - rewrite (bool_decide_eq_true_2 _ Hcols). cbn [negb]. rewrite andb_false_r.
    rewrite bool_decide_eq_true, !row_keys_subseteq. split.
    + intros [H1 H2]. split; [|done]. intros row. split; [apply H1|apply H2].
    + intros [Hrows _]. split; intros row; apply Hrows.
  - rewrite (bool_decide_eq_false_2 _ Hcols). cbn [negb]. rewrite andb_true_r.
    destruct (bool_decide _); split; try done; by intros [_ ?].
Qed.

Lemma pg_begin {V : Type} (D : Type) (pg_run : D -> string -> @Capsule.PgExec V D)
      (st : Capsule.Session D) :
  Capsule.pg_execute D pg_run st "BEGIN;" = (st, Capsule.ExecDone None []).
Proof. reflexivity. Qed.

Lemma pg_rollback {V : Type} (D : Type) (pg_run : D -> string -> @Capsule.PgExec V D)
      (st : Capsule.Session D) :
  Capsule.pg_execute D pg_run st "ROLLBACK;"
  = (Capsule.mkSession D (Capsule.committed D st) (Capsule.committed D st),
     Capsule.ExecDone None []).
Proof. reflexivity. Qed.

(** C4, counterexample. The reference returns the single row [{a: 1}] and
    the candidate returns it twice: validation succeeds although the two
    results differ as multisets. *)
Lemma duplicated_rows_pass_validation :
  exists res,
    fst (Capsule.validate_with_sqlite (list Z) Examples.toy_sqlite [] Examples.toy_schema
           "SELECT a FROM t" "SELECT a FROM t UNION ALL SELECT a FROM t")
    = Py.Ret res
    /\ Capsule.v_success res = true
    /\ Capsule.v_expected_result res = Some [Examples.a_row 1]
    /\ Capsule.v_user_result res = Some [Examples.a_row 1; Examples.a_row 1]
    /\ ~ ([Examples.a_row 1; Examples.a_row 1] ≡ₚ [Examples.a_row 1]).
Proof.
  eexists. split; [by vm_compute|].
  repeat split; try (by vm_compute).
  intros Hperm. apply Permutation_length in Hperm. discriminate.
Qed.

(** C4, as amended. When the candidate query runs without error and
    returns a result set, and every value of the two results can be hashed
    (which is always so on SQLite), validation succeeds exactly when
    (a) every row of the candidate's result occurs in the reference's
    result and the other way round, rows being compared as
    column-name-to-value mappings, their order and the number of times a
    row is repeated being of no account, and (b) the two column-name lists
    are equal, in order. This holds on both backends. *)
Theorem validation_compares_rows_as_sets {V : Type} `{EqDecision V} `{Capsule.Hashable V}
        (schema_setup : list string) (reference_solution user_query : string)
        (expected_cols user_cols : list string)
        (expected_result user_result : list (gmap string V)) :
  nonempty user_query = true ->
  Capsule.hashable_rows user_result ->
  Capsule.hashable_rows expected_result ->
  (forall (DB : Type) (execute : DB -> string -> DB * Capsule.Exec)
          (memory_db db1 db2 db3 : DB) (sent : list string),
     Capsule.run_schema DB execute memory_db schema_setup = (db1, None, sent) ->
     execute db1 reference_solution
     = (db2, Capsule.ExecDone (Some expected_cols) expected_result) ->
     execute db2 user_query = (db3, Capsule.ExecDone (Some user_cols) user_result) ->
     exists res,
       fst (Capsule.validate_with_sqlite DB execute memory_db schema_setup
              reference_solution user_query) = Py.Ret res
       /\ (Capsule.v_success res = true
           <-> (forall row, row ∈ user_result <-> row ∈ expected_result)
               /\ user_cols = expected_cols))
  /\ (forall (D : Type) (pg_run : D -> string -> Capsule.PgExec D) (db : D)
             (st1 st2 st3 : Capsule.Session D) (sent : list string),
        Capsule.pg_schema D pg_run (Capsule.mkSession D db db) schema_setup
        = (st1, None, sent) ->
        Capsule.pg_execute D pg_run st1 reference_solution
        = (st2, Capsule.ExecDone (Some expected_cols) expected_result) ->
        Capsule.pg_execute D pg_run st2 user_query
        = (st3, Capsule.ExecDone (Some user_cols) user_result) ->
        exists res,
          Capsule.pg_returned D
            (Capsule.validate_with_postgres D pg_run None db schema_setup
               reference_solution user_query) = Py.Ret res
          /\ (Capsule.v_success res = true
              <-> (forall row, row ∈ user_result <-> row ∈ expected_result)
                  /\ user_cols = expected_cols)).
Proof.
  intros Huq Hu He.
  destruct (is_correct_spec user_result user_cols expected_result expected_cols Hu He)
    as (ok & Hok & Hspec).
  split.
  - intros DB execute memory_db db1 db2 db3 sent Hschema Href Huser.
    unfold Capsule.validate_with_sqlite. rewrite Hschema, Href, Huq, Huser.
    unfold Capsule.compared. rewrite Hok. eexists. split; [reflexivity|]. exact Hspec.
  - intros D pg_run db st1 st2 st3 sent Hschema Href Huser.
    unfold Capsule.validate_with_postgres.
    rewrite pg_begin, Hschema, Href, Huq, Huser. unfold Capsule.compared. rewrite Hok.
    rewrite pg_rollback. eexists. split; [reflexivity|]. exact Hspec.
Qed.

Lemma validation_compares_rows_as_sets_witness :
  exists res,
    fst (Capsule.validate_with_sqlite (list Z) Examples.toy_sqlite [] Examples.toy_schema
           "SELECT a FROM t" "SELECT a FROM t UNION ALL SELECT a FROM t") = Py.Ret res
    /\ (Capsule.v_success res = true
        <-> (forall row, row ∈ [Examples.a_row 1; Examples.a_row 1]
                         <-> row ∈ [Examples.a_row 1])
            /\ ["a"] = ["a"]).
Proof.
  apply (proj1 (validation_compares_rows_as_sets
                  Examples.toy_schema "SELECT a FROM t"
                  "SELECT a FROM t UNION ALL SELECT a FROM t" ["a"] ["a"]
                  [Examples.a_row 1] [Examples.a_row 1; Examples.a_row 1] eq_refl
                  (fun _ _ _ _ _ => eq_refl) (fun _ _ _ _ _ => eq_refl))
               (list Z) Examples.toy_sqlite [] [1%Z] [1%Z] [1%Z] Examples.toy_schema);
    reflexivity.
Defined.

(** ** The transaction of the PostgreSQL backend *)

Section Rollback.

Context {V : Type} `{EqDecision V} `{Capsule.Hashable V}.
Variable D : Type.
Variable pg_run : D -> string -> @Capsule.PgExec V D.

(** No statement text closes the transaction with a commit. *)
Hypothesis no_commit :
  forall (view : D) (statement : string),
    Capsule.pg_ends D (pg_run view statement) <> Some Capsule.Commits.

Lemma pg_execute_keeps_committed (st : Capsule.Session D) (statement : string) :
  Capsule.committed D (fst (Capsule.pg_execute D pg_run st statement))
  = Capsule.committed D st.
Proof using no_commit.
  unfold Capsule.pg_execute. repeat case_decide; [done..|].
  pose proof (no_commit (Capsule.view D st) statement) as Hno.
  cbn [fst]. destruct (Capsule.pg_ends D _) as [[]|]; done.
Qed.

Lemma pg_schema_keeps_committed (st : Capsule.Session D) (schema_setup : list string) :
  Capsule.committed D (fst (fst (Capsule.pg_schema D pg_run st schema_setup)))
  = Capsule.committed D st.
Proof using no_commit.
  revert st. induction schema_setup as [|statement rest IH]; intros st; [done|].
  cbn [Capsule.pg_schema]. destruct (Str.strip_nonempty statement); [|apply IH].
  pose proof (pg_execute_keeps_committed st statement) as Hst.
  destruct (Capsule.pg_execute D pg_run st statement) as [st' [msg|descr rows]];
    cbn [fst] in *; [done|].
  specialize (IH st').
  destruct (Capsule.pg_schema D pg_run st' rest) as [[st'' e] sent]. cbn [fst] in *.
  congruence.
Qed.

(** As long as no statement text commits, the committed content is left
    as it was on every path through [validate_with_postgres]: after the
    explicit [ROLLBACK;], or because closing the connection drops the open
    transaction. This is a statement about the content the server rolls
    back; it says nothing of effects outside the transaction. *)
Lemma database_unchanged_without_commit (connect_error : option string) (db : D)
      (schema_setup : list string) (reference_solution user_query : string) :
  Capsule.pg_database D
    (Capsule.validate_with_postgres D pg_run connect_error db schema_setup
       reference_solution user_query) = db.
Proof using no_commit.
  unfold Capsule.validate_with_postgres.
  destruct connect_error; [done|]. rewrite pg_begin.
  pose proof (pg_schema_keeps_committed (Capsule.mkSession D db db) schema_setup) as Hs.
  destruct (Capsule.pg_schema D pg_run _ schema_setup) as [[st1 e] sent].
  cbn [fst Capsule.committed] in Hs. destruct e; [done|].
  pose proof (pg_execute_keeps_committed st1 reference_solution) as Hr.
  destruct (Capsule.pg_execute D pg_run st1 reference_solution)
    as [st2 [msg|[expected_cols|] expected_result]]; cbn [fst] in Hr;
    cbn [Capsule.pg_database]; unfold Capsule.pg_close; try congruence.
  destruct (nonempty user_query).
  - pose proof (pg_execute_keeps_committed st2 user_query) as Hu.
    destruct (Capsule.pg_execute D pg_run st2 user_query)
      as [st3 [msg|[user_cols|] user_result]]; cbn [fst] in Hu;
      try destruct (Capsule.compared _ _ _ _);
      rewrite ?pg_rollback; cbn; unfold Capsule.pg_close; cbn; congruence.
  - rewrite pg_rollback. cbn. unfold Capsule.pg_close. cbn. congruence.
Qed.

End Rollback.

(** C5, the code at the failing input. The candidate text inserts a row and
    commits: the [ROLLBACK;] that follows has nothing left to undo and the
    shared database, empty before the call, holds the row afterwards. With
    the same insertion and no commit the database is left empty. When a
    schema statement fails, no [ROLLBACK;] is sent at all; the open
    transaction is dropped when the connection is closed. *)
Theorem commit_in_candidate_survives_rollback :
  let committing :=
    Capsule.validate_with_postgres (list Z) Examples.toy_postgres None []
      ["CREATE TABLE t (a INTEGER)"] "SELECT a FROM t" "INSERT INTO t VALUES (1); COMMIT;" in
  let plain :=
    Capsule.validate_with_postgres (list Z) Examples.toy_postgres None []
      ["CREATE TABLE t (a INTEGER)"] "SELECT a FROM t" "INSERT INTO t VALUES (1)" in
  let broken_schema :=
    Capsule.validate_with_postgres (list Z) Examples.toy_postgres None []
      ["CREATE TABLE t (a INTEGER)"; "CREATE TABEL u"] "SELECT a FROM t" "SELECT a FROM t" in
  Capsule.pg_database (list Z) committing = [1%Z]
  /\ Capsule.pg_database (list Z) committing <> []
  /\ Capsule.pg_sent (list Z) committing
     = ["BEGIN;"; "CREATE TABLE t (a INTEGER)"; "SELECT a FROM t";
        "INSERT INTO t VALUES (1); COMMIT;"; "ROLLBACK;"]
  /\ Capsule.pg_database (list Z) plain = []
  /\ Capsule.pg_sent (list Z) broken_schema
     = ["BEGIN;"; "CREATE TABLE t (a INTEGER)"; "CREATE TABEL u"]
  /\ Capsule.pg_database (list Z) broken_schema = [].
Proof. repeat split; by vm_compute. Qed.

(** ** Further properties of the container handlers *)

(** Membership in a list written out in full, and its negation. *)
Ltac list_in :=
  cbn; repeat first [apply list_elem_of_here | apply list_elem_of_further].

Ltac list_not_in :=
  let H := fresh "Hin" in
  cbn; intros H; vm_compute in H;
  repeat (apply elem_of_cons in H as [H|H]; [discriminate|]);
  by apply elem_of_nil in H.

Lemma rev_app_append (s1 s2 t : string) :
  String.rev_app s1 s2 +:+ t = String.rev_app s1 (s2 +:+ t).
Proof. revert s2. induction s1 as [|a s1 IH]; intros s2; [done|]. simpl. by rewrite IH. Qed.

Lemma split_go_nonempty (cur s : string) : Str.split_go cur s <> [].
Proof.
  revert cur. induction s as [|c s IH]; intros cur; [done|].
  cbn [Str.split_go]. case_decide; [done|apply IH].
Qed.

Lemma join_cons (sep x : string) (l : list string) :
  l <> [] -> Str.join sep (x :: l) = x +:+ sep +:+ Str.join sep l.
Proof. by destruct l. Qed.

Lemma join_split_go (cur s : string) :
  Str.join Str.nl (Str.split_go cur s) = String.rev cur +:+ s.
Proof.
  revert cur. induction s as [|c s IH]; intros cur.
  - simpl. unfold String.rev. rewrite rev_app_append. done.
  - cbn [Str.split_go]. case_decide as Hc.
    + subst c. rewrite join_cons by apply split_go_nonempty.
      rewrite IH. unfold String.rev. cbn [String.rev_app].
      rewrite !rev_app_append. done.
    + rewrite IH. unfold String.rev. cbn [String.rev_app].
      rewrite !rev_app_append. done.
Qed.

(** X1. Joining the lines of a text with newlines gives the text back, so
    indenting by zero spaces leaves every source as it is. *)
Theorem indent_by_zero_is_identity (code : string) :
  Str.join Str.nl (Str.split_lines code) = code /\ indent_code code 0 = code.
Proof.
  assert (Str.join Str.nl (Str.split_lines code) = code) as Hjoin
    by apply (join_split_go EmptyString).
  split; [done|]. unfold indent_code.
  assert (forall ls, map (fun line => if Str.strip_nonempty line
                                      then Str.spaces 0 +:+ line else line) ls = ls) as Hmap.
  { induction ls as [|l ls IH]; [done|].
    cbn [map]. rewrite IH. by destruct (Str.strip_nonempty l). }
  by rewrite Hmap.
Qed.

(** X2. Whatever the tool chain does, the C# handler answers 200, 400 or
    500; it answers 200 exactly when the body says [success]; a successful
    body has no [error] key; and the two stdout fields agree. *)
Theorem csharp_status_follows_success (w : CSharp.World) (req : Request) :
  let r := fst (CSharp.lambda_handler w req) in
  (statusCode r = 200 \/ statusCode r = 400 \/ statusCode r = 500)%Z
  /\ (statusCode r = 200%Z <-> body_success r = true)
  /\ (body_success r = true -> body_error r = None)
  /\ body_execution_stdout r = body_stdout r.
Proof.
  unfold CSharp.lambda_handler, CSharp.execute_csharp_code.
  destruct (Str.strip_nonempty (req_code req)); cbn [negb];
    [|cbn; intuition congruence].
  destruct (CSharp.makedirs_workspace w); [cbn; intuition congruence|].
  destruct (CSharp.write_project w _); [cbn; intuition congruence|].
  destruct (Proc.run_outcome _) as [rc o e|o e|msg]; try (cbn; intuition congruence).
  destruct (rc =? 0)%Z; cbn [negb]; [|cbn; intuition congruence].
  cbn [fst]. unfold create_response.
  destruct (success _); cbn; rewrite ?andb_false_r; intuition congruence.
Qed.

(** X3. The C# handler starts its commands one after the other in a fixed
    order, and the program is run only for a non-blank submission whose
    workspace could be written and whose build ended with status 0. *)
Theorem csharp_run_needs_clean_build (w : CSharp.World) (req : Request) :
  snd (CSharp.lambda_handler w req)
    ∈ [ []; [CSharp.rm_cmd]; [CSharp.rm_cmd; CSharp.build_cmd];
        [CSharp.rm_cmd; CSharp.build_cmd; CSharp.run_cmd] ]
  /\ (CSharp.run_cmd ∈ snd (CSharp.lambda_handler w req) ->
      Str.strip_nonempty (req_code req) = true
      /\ CSharp.makedirs_workspace w = None
      /\ CSharp.write_project w (CSharp.wrapped_code (req_code req)) = None
      /\ exists o e,
           Proc.run_outcome
             (Proc.subprocess_run (CSharp.dotnet_build w (CSharp.wrapped_code (req_code req))) 15)
           = Proc.Completed 0 o e).
Proof.
  unfold CSharp.lambda_handler, CSharp.execute_csharp_code.
  destruct (Str.strip_nonempty (req_code req)); cbn [negb]; [|split; [list_in|list_not_in]].
  destruct (CSharp.makedirs_workspace w); [split; [list_in|list_not_in]|].
  destruct (CSharp.write_project w _); [split; [list_in|list_not_in]|].
  destruct (Proc.run_outcome _) as [rc o e|o e|msg]; try (split; [list_in|list_not_in]).
  destruct (Z.eqb_spec rc 0) as [->|Hrc]; cbn [negb]; [|split; [list_in|list_not_in]].
  split; [list_in|]. intros _. repeat split; eauto.
Qed.

Lemma csharp_run_needs_clean_build_witness :
  Str.strip_nonempty (req_code Examples.csharp_request) = true
  /\ CSharp.makedirs_workspace Scenarios.csharp_good_world = None
  /\ CSharp.write_project Scenarios.csharp_good_world
       (CSharp.wrapped_code (req_code Examples.csharp_request)) = None
  /\ exists o e,
       Proc.run_outcome
         (Proc.subprocess_run
            (CSharp.dotnet_build Scenarios.csharp_good_world
               (CSharp.wrapped_code (req_code Examples.csharp_request))) 15)
       = Proc.Completed 0 o e.
Proof.
  apply (proj2 (csharp_run_needs_clean_build Scenarios.csharp_good_world
                  Examples.csharp_request)).
  list_in.
Defined.

Lemma completing_run (pid : nat) (p : Proc.Program) (t : Z) :
  Proc.completes_within p t = true ->
  exists e,
    Proc.pipes_closed_at p = Some e /\ (Z.of_nat e < t)%Z
    /\ Proc.subprocess_run (Proc.Launched pid p) t
       = Proc.mkRun (Proc.Completed (Proc.exit_code p) (Proc.out p) (Proc.err p)) e
                    [(0, Proc.SysFork pid); (e, Proc.SysWait pid)].
Proof.
  intros Hc. unfold Proc.subprocess_run. rewrite Hc.
  unfold Proc.completes_within in Hc.
  destruct (Proc.pipes_closed_at p) as [e|]; [|done]. exists e.
  apply Z.ltb_lt in Hc. done.
Qed.

(** The child has exited before the ceiling, but a descendant keeps a pipe
    open past it. *)
Lemma held_pipes_run (pid : nat) (p : Proc.Program) (t : Z) :
  Proc.completes_within p t = false ->
  Proc.finishes_within p t = true ->
  Proc.subprocess_run (Proc.Launched pid p) t
  = Proc.mkRun (Proc.TimeoutExpired (Proc.out p) (Proc.err p)) (Z.to_nat t)
               [(0, Proc.SysFork pid); (Z.to_nat t, Proc.SysWait pid)].
Proof. intros Hc Hfin. unfold Proc.subprocess_run. by rewrite Hc, Hfin. Qed.



(** X5. [execute_with_timeout] returns at the latest one second after the
    ceiling, whatever the program does, and a result flagged as a timeout
    never reports success, has an empty stdout and no return code. *)
Theorem run_returns_by_the_deadline (l : Proc.Launch) (t : Z) :
  let f := CSharp.execute_with_timeout l t in
  fin_time f <= Z.to_nat (t + 1)
  /\ (timeout (fin_result f) = true ->
      success (fin_result f) = false /\ stdout (fin_result f) = EmptyString
      /\ returncode (fin_result f) = None
      /\ stderr (fin_result f) = timeout_message t).
Proof.
  cbn zeta. unfold CSharp.execute_with_timeout.
  destruct (_ && _) eqn:Hend; cbn [fin_time fin_result].
  - apply andb_true_iff in Hend as [_ Hend]. split; [by apply Nat.leb_le|].
    destruct l as [msg|pid p]; [cbn; done|].
    destruct (Proc.completes_within p t) eqn:Hc.
    + destruct (completing_run pid p t Hc) as (e & _ & _ & ->). cbn. done.
    + destruct (Proc.finishes_within p t) eqn:Hfin.
      * rewrite (held_pipes_run pid p t Hc Hfin). cbn. done.
      * rewrite (timed_out_run pid p t Hfin). cbn. done.
  - split; [lia|]. cbn. done.
Qed.

Lemma run_returns_by_the_deadline_witness :
  success (fin_result (CSharp.execute_with_timeout (Proc.Launched 42 Examples.stuck) 2)) = false
  /\ stdout (fin_result (CSharp.execute_with_timeout (Proc.Launched 42 Examples.stuck) 2))
     = EmptyString.
Proof.
  destruct (proj2 (run_returns_by_the_deadline (Proc.Launched 42 Examples.stuck) 2) eq_refl)
    as (Hs & Ho & _).
  split; assumption.
Defined.

(** X6. The Go handler fails to answer only when [go mod init] never ends:
    it is run without a timeout, as is the [rm] before it, which is taken
    to end; every answer the handler gives has status 200 exactly when the
    body says [success]. *)
Theorem go_handler_answers_unless_mod_init_hangs (w : Go.World) (req : Request) :
  (Go.lambda_handler w req = None
   <-> Str.strip_nonempty (req_code req) = true
       /\ Go.makedirs_workspace w = None
       /\ Go.run_unbounded (Go.go_mod_init w) = None)
  /\ (forall r cmds, Go.lambda_handler w req = Some (r, cmds) ->
      (statusCode r = 200%Z <-> body_success r = true)).
Proof.
  unfold Go.lambda_handler, Go.execute_go_code.
  destruct (Str.strip_nonempty (req_code req)); cbn [negb].
  2:{ split; [intuition congruence|]. intros r cmds [= <- <-]. cbn. intuition congruence. }
  destruct (Go.makedirs_workspace w).
  { split; [intuition congruence|]. intros r cmds [= <- <-]. cbn. intuition congruence. }
  destruct (Go.run_unbounded (Go.go_mod_init w)) as [[msg|]|].
  3:{ split; [intuition congruence|]. intros r cmds [=]. }
  { split; [intuition congruence|]. intros r cmds [= <- <-]. cbn. intuition congruence. }
  destruct (Go.write_source w _).
  { split; [intuition congruence|]. intros r cmds [= <- <-]. cbn. intuition congruence. }
  destruct (Proc.run_outcome _) as [rc o e|o e|msg].
  2,3: split; [intuition congruence|]; intros r cmds [= <- <-]; cbn; intuition congruence.
  destruct (rc =? 0)%Z; cbn [negb].
  2:{ split; [intuition congruence|]. intros r cmds [= <- <-]. cbn. intuition congruence. }
  split; [intuition congruence|]. intros r cmds [= <- <-].
  unfold create_response. destruct (success _); cbn; intuition congruence.
Qed.

Lemma go_handler_answers_unless_mod_init_hangs_witness :
  statusCode (create_response false EmptyString
                ("Compilation error:" +:+ Str.nl +:+ "./main.go:2:1: syntax error") 400)
  = 200%Z
  <-> body_success (create_response false EmptyString
                      ("Compilation error:" +:+ Str.nl +:+ "./main.go:2:1: syntax error") 400)
      = true.
Proof.
  apply (proj2 (go_handler_answers_unless_mod_init_hangs Scenarios.go_world Scenarios.go_request)
               _ [Go.rm_cmd; Go.mod_init_cmd; Go.build_cmd]).
  reflexivity.
Defined.

(** X7. In the Go handler a build that exits with a status other than zero
    ends the call with 400, an empty stdout and the heading
    [Compilation error:] followed by the build's stderr; a build that is
    still running after 10 seconds ends it with
    [Compilation timeout (10 seconds exceeded)]. In both cases the program
    is not run. *)
Theorem go_build_failure_stops_before_run (w : Go.World) (req : Request) :
  Str.strip_nonempty (req_code req) = true ->
  Go.makedirs_workspace w = None ->
  Go.run_unbounded (Go.go_mod_init w) = Some None ->
  Go.write_source w (Go.wrapped_code (req_code req)) = None ->
  (forall rc o e,
     Proc.run_outcome (Proc.subprocess_run (Go.go_build w (Go.wrapped_code (req_code req))) 10)
     = Proc.Completed rc o e ->
     rc <> 0%Z ->
     Go.lambda_handler w req
     = Some (create_response false EmptyString ("Compilation error:" +:+ Str.nl +:+ e) 400,
             [Go.rm_cmd; Go.mod_init_cmd; Go.build_cmd]))
  /\ (forall o e,
        Proc.run_outcome (Proc.subprocess_run (Go.go_build w (Go.wrapped_code (req_code req))) 10)
        = Proc.TimeoutExpired o e ->
        Go.lambda_handler w req
        = Some (create_response false EmptyString
                                "Compilation timeout (10 seconds exceeded)" 400,
                [Go.rm_cmd; Go.mod_init_cmd; Go.build_cmd])).
Proof.
  intros Hcode Hmk Hinit Hwr. unfold Go.lambda_handler, Go.execute_go_code.
  rewrite Hcode, Hmk, Hinit, Hwr. cbn [negb]. split.
  - intros rc o e -> Hrc. destruct (Z.eqb_spec rc 0); [done|]. reflexivity.
  - intros o e ->. reflexivity.
Qed.

Lemma go_build_failure_stops_before_run_witness :
  Go.lambda_handler Scenarios.go_world Scenarios.go_request
  = Some (create_response false EmptyString
            ("Compilation error:" +:+ Str.nl +:+ "./main.go:2:1: syntax error") 400,
          [Go.rm_cmd; Go.mod_init_cmd; Go.build_cmd]).
Proof.
  apply (proj1 (go_build_failure_stops_before_run Scenarios.go_world Scenarios.go_request
                  eq_refl eq_refl eq_refl eq_refl) 2%Z EmptyString
               "./main.go:2:1: syntax error"); [by vm_compute|discriminate].
Defined.

(** ** Further properties of the Java judge *)

Lemma extract_go_none (has_main : bool) (lines : list string) :
  has_main = false ->
  (fix go (lines : list string) : option string :=
     match lines with
     | [] => None
     | line :: rest =>
         match JavaJudge.class_of_line line with
         | Some class_name => if has_main then Some class_name else go rest
         | None => go rest
         end
     end) lines = None.
Proof.
  intros ->. induction lines as [|line rest IH]; [done|].
  destruct (JavaJudge.class_of_line line); exact IH.
Qed.

(** What the Java handler does once the module has been imported: the
    first read of the name [time] raises [NameError], inside the [try] or
    in [create_response], and the [except] clause raises it again from
    [create_response]. *)
Lemma java_handler_as_imported (w : JavaJudge.World) (tb : string) (req : JavaJudge.Request) :
  JavaJudge.time_bound w = false ->
  fst (JavaJudge.lambda_handler w tb req) = Py.Raise JavaJudge.name_error.
Proof.
  intros Htime.
  unfold JavaJudge.lambda_handler, JavaJudge.handler_body, JavaJudge.execute_java,
    JavaJudge.create_response.
  rewrite Htime. cbn [negb].
  destruct (nonempty (Str.strip (JavaJudge.source_code req))); cbn [negb]; [|done].
  destruct (JavaJudge.extract_main_class _) as [main_class|]; [|done].
  destruct (nonempty main_class); cbn [negb]; [|done].
  destruct (JavaJudge.write_source w _ _); [done|].
  by destruct (JavaJudge.c_success _).
Qed.

(** X8. A source that does not contain the text [public static void main]
    has no main class, whatever classes it declares, and the Java judge
    compiles nothing for such a submission: with the name [time] bound it
    answers 400 [No public class with main method found], and with the
    module imported, where [time] is not bound, the handler raises
    [NameError] instead of answering. *)
Theorem java_source_without_main_is_rejected (w : JavaJudge.World) (tb : string)
        (req : JavaJudge.Request) :
  Str.contains "public static void main" (Str.strip (JavaJudge.source_code req)) = false ->
  JavaJudge.extract_main_class (Str.strip (JavaJudge.source_code req)) = None
  /\ (nonempty (Str.strip (JavaJudge.source_code req)) = true ->
      snd (JavaJudge.lambda_handler w tb req) = []
      /\ (JavaJudge.time_bound w = true ->
          fst (JavaJudge.lambda_handler w tb req)
          = Py.Ret (JavaJudge.plain_response 400 "No public class with main method found"))
      /\ (JavaJudge.time_bound w = false ->
          fst (JavaJudge.lambda_handler w tb req) = Py.Raise JavaJudge.name_error)).
Proof.
  intros Hmain.
  assert (JavaJudge.extract_main_class (Str.strip (JavaJudge.source_code req)) = None) as Hnone
    by (unfold JavaJudge.extract_main_class; by apply extract_go_none).
  split; [done|]. intros Hsrc. split; [|split].
  - unfold JavaJudge.lambda_handler, JavaJudge.handler_body, JavaJudge.create_response.
    rewrite Hsrc, Hnone. cbn [negb]. by destruct (JavaJudge.time_bound w).
  - intros Htime.
    unfold JavaJudge.lambda_handler, JavaJudge.handler_body, JavaJudge.create_response.
    by rewrite Hsrc, Hnone, Htime.
  - apply java_handler_as_imported.
Qed.

Lemma java_source_without_main_is_rejected_witness :
  JavaJudge.extract_main_class
    (Str.strip (JavaJudge.source_code
                  (JavaJudge.mkRequest Scenarios.java_without_main EmptyString None None)))
  = None
  /\ JavaJudge.lambda_handler Examples.java_world "tb"
       (JavaJudge.mkRequest Scenarios.java_without_main EmptyString None None)
     = (Py.Ret (JavaJudge.plain_response 400 "No public class with main method found"), [])
  /\ JavaJudge.lambda_handler Examples.java_imported_world "tb"
       (JavaJudge.mkRequest Scenarios.java_without_main EmptyString None None)
     = (Py.Raise JavaJudge.name_error, []).
Proof.
  destruct (java_source_without_main_is_rejected Examples.java_world "tb"
              (JavaJudge.mkRequest Scenarios.java_without_main EmptyString None None)
              eq_refl) as [Hnone Hscript].
  destruct (Hscript eq_refl) as (Hphases & Hanswer & _).
  destruct (java_source_without_main_is_rejected Examples.java_imported_world "tb"
              (JavaJudge.mkRequest Scenarios.java_without_main EmptyString None None)
              eq_refl) as [_ Himported].
  destruct (Himported eq_refl) as (Hphases' & _ & Hraise).
  split; [exact Hnone|]. split.
  - rewrite (surjective_pairing (JavaJudge.lambda_handler _ _ _)).
    by rewrite Hphases, (Hanswer eq_refl).
  - rewrite (surjective_pairing (JavaJudge.lambda_handler _ _ _)).
    by rewrite Hphases', (Hraise eq_refl).
Defined.

Lemma lacks_before_same (c : ascii) (s : string) : Str.lacks c (Str.before c s) = true.
Proof.
  induction s as [|a s IH]; [done|]. cbn [Str.before].
  destruct (decide (a = c)) as [Ha|Ha]; [done|].
  cbn [Str.lacks]. rewrite IH, bool_decide_eq_false_2 by done. done.
Qed.

Lemma lacks_before_other (c d : ascii) (s : string) :
  Str.lacks c s = true -> Str.lacks c (Str.before d s) = true.
Proof.
  induction s as [|a s IH]; [done|]. cbn [Str.before Str.lacks].
  intros [Ha Hs]%andb_true_iff. destruct (decide (a = d)); [done|].
  cbn [Str.lacks]. by rewrite Ha, IH.
Qed.

Lemma class_of_line_clean (line name : string) :
  JavaJudge.class_of_line line = Some name ->
  Str.lacks "{" name = true /\ Str.lacks " " name = true.
Proof.
  unfold JavaJudge.class_of_line. destruct (Str.startswith _ _); [|done].
  destruct (Str.words _) as [|? [|? [|w ?]]]; try done. intros [= <-]. split.
  - apply lacks_before_other, lacks_before_same.
  - apply lacks_before_same.
Qed.

Lemma extract_go_some (lines : list string) (name : string) :
  (fix go (lines : list string) : option string :=
     match lines with
     | [] => None
     | line :: rest =>
         match JavaJudge.class_of_line line with
         | Some class_name => if true then Some class_name else go rest
         | None => go rest
         end
     end) lines = Some name ->
  exists line, line ∈ lines /\ JavaJudge.class_of_line line = Some name.
Proof.
  induction lines as [|line rest IH]; [done|].
  destruct (JavaJudge.class_of_line line) as [n|] eqn:Hline.
  - intros [= <-]. exists line. split; [apply list_elem_of_here|done].
  - intros Hrest. destruct (IH Hrest) as (l & Hl & Hc).
    exists l. split; [by apply list_elem_of_further|done].
Qed.

(** X9. The class name found by [extract_main_class] contains neither a
    brace nor a space, the line it comes from starts, once stripped, with
    [public class ], and the source contains the main signature. *)
Theorem extracted_class_name_is_clean (source_code name : string) :
  JavaJudge.extract_main_class source_code = Some name ->
  Str.lacks "{" name = true /\ Str.lacks " " name = true
  /\ Str.contains "public static void main" source_code = true
  /\ exists line, line ∈ Str.split_lines source_code
                  /\ Str.startswith "public class " (Str.strip line) = true.
Proof.
  intros Hname.
  destruct (Str.contains "public static void main" source_code) eqn:Hmain.
  - unfold JavaJudge.extract_main_class in Hname. rewrite Hmain in Hname.
    apply extract_go_some in Hname as (line & Hin & Hline).
    destruct (class_of_line_clean _ _ Hline) as [H1 H2].
    repeat split; try done. exists line. split; [done|].
    unfold JavaJudge.class_of_line in Hline. by destruct (Str.startswith _ _).
  - unfold JavaJudge.extract_main_class in Hname. rewrite Hmain in Hname.
    by rewrite (extract_go_none false) in Hname.
Qed.

Lemma extracted_class_name_is_clean_witness :
  Str.lacks "{" "Hello" = true /\ Str.lacks " " "Hello" = true.
Proof.
  destruct (extracted_class_name_is_clean Examples.java_source "Hello") as (H1 & H2 & _);
    [by vm_compute|]. split; assumption.
Defined.

(** X10. [compile_java] reports success exactly when javac ran to its end
    with status 0; it carries an error text exactly when it reports failure;
    and when javac timed out or could not be started the compile output is
    empty. *)
Theorem compile_java_error_iff_failure (r : Proc.Run) (time_limit : Z) :
  let c := JavaJudge.compile_java r time_limit in
  (JavaJudge.c_success c = true <-> exists o e, Proc.run_outcome r = Proc.Completed 0 o e)
  /\ (JavaJudge.c_error c = None <-> JavaJudge.c_success c = true)
  /\ ((forall rc o e, Proc.run_outcome r <> Proc.Completed rc o e) ->
      JavaJudge.c_output c = EmptyString).
Proof.
  unfold JavaJudge.compile_java.
  destruct (Proc.run_outcome r) as [rc o e|o e|msg].
  - destruct (Z.eqb_spec rc 0) as [->|Hrc]; cbn.
    + repeat split; eauto. intros Hno. by destruct (Hno 0%Z o e).
    + repeat split; try done.
      * intros (o' & e' & [= ? ? ?]). done.
      * intros Hno. by destruct (Hno rc o e).
  - cbn. repeat split; try done. by intros (o' & e' & ?).
  - cbn. repeat split; try done. by intros (o' & e' & ?).
Qed.

Lemma compile_java_error_iff_failure_witness :
  JavaJudge.c_output
    (JavaJudge.compile_java (Proc.subprocess_run (Proc.Launched 7 Examples.runaway) 2) 2)
  = EmptyString.
Proof.
  apply (proj2 (proj2 (compile_java_error_iff_failure
                         (Proc.subprocess_run (Proc.Launched 7 Examples.runaway) 2) 2))).
  intros rc o e. vm_compute. discriminate.
Defined.

(** X11. With the module imported, where the name [time] is not bound,
    the Java handler answers no request: every call raises [NameError].
    With the name bound it answers every request, and the answer is 200
    exactly when the execute phase was entered; it then carries an exit
    code: a submission that compiles is answered with 200
    [Execution completed] also when its run is cut off at the ceiling
    (exit code 124) or cannot be started (exit code 1). Every other answer
    is 400 or 500 and entered at most the compile phase. *)
Theorem java_status_200_iff_executed (w : JavaJudge.World) (tb : string)
        (req : JavaJudge.Request) :
  let answer := JavaJudge.lambda_handler w tb req in
  (JavaJudge.time_bound w = false -> fst answer = Py.Raise JavaJudge.name_error)
  /\ (JavaJudge.time_bound w = true ->
      exists r,
        fst answer = Py.Ret r
        /\ (JavaJudge.statusCode r = 200%Z
            <-> snd answer = [JavaJudge.PhaseCompile; JavaJudge.PhaseExecute])
        /\ (JavaJudge.statusCode r = 200%Z ->
            JavaJudge.message r = "Execution completed"
            /\ JavaJudge.compile_output r = None
            /\ exists code, JavaJudge.r_exit_code r = Some code)
        /\ (JavaJudge.statusCode r <> 200%Z ->
            (JavaJudge.statusCode r = 400 \/ JavaJudge.statusCode r = 500)%Z
            /\ JavaJudge.r_exit_code r = None
            /\ (snd answer = [] \/ snd answer = [JavaJudge.PhaseCompile]))).
Proof.
  cbn zeta. split; [apply java_handler_as_imported|]. intros Htime.
  unfold JavaJudge.lambda_handler, JavaJudge.handler_body, JavaJudge.execute_java,
    JavaJudge.create_response.
  rewrite Htime. cbn [negb].
  destruct (nonempty (Str.strip (JavaJudge.source_code req))); cbn [negb];
    [|eexists; split; [reflexivity|]; cbn; intuition (eauto; congruence)].
  destruct (JavaJudge.extract_main_class _) as [main_class|];
    [|eexists; split; [reflexivity|]; cbn; intuition (eauto; congruence)].
  destruct (nonempty main_class); cbn [negb];
    [|eexists; split; [reflexivity|]; cbn; intuition (eauto; congruence)].
  destruct (JavaJudge.write_source w _ _);
    [eexists; split; [reflexivity|]; cbn; intuition (eauto; congruence)|].
  destruct (JavaJudge.c_success _); cbn [negb];
    eexists; (split; [reflexivity|]); cbn; intuition (eauto; congruence).
Qed.



Lemma java_status_200_iff_executed_witness :
  fst (JavaJudge.lambda_handler Scenarios.java_good_imported_world "tb" Examples.java_request)
  = Py.Raise JavaJudge.name_error
  /\ exists r,
       fst (JavaJudge.lambda_handler Scenarios.java_good_world "tb" Examples.java_request)
       = Py.Ret r
       /\ JavaJudge.message r = "Execution completed".
Proof.
  split.
  - apply (proj1 (java_status_200_iff_executed Scenarios.java_good_imported_world "tb"
                    Examples.java_request)).
    reflexivity.
  - destruct (proj2 (java_status_200_iff_executed Scenarios.java_good_world "tb"
                       Examples.java_request) eq_refl) as (r & Hret & Hiff & H200 & _).
    exists r. split; [exact Hret|].
    apply H200, Hiff. by vm_compute.
Defined.

(** ** Further properties of the Python judge *)







Lemma test_input_not_in_table :
  PythonJudge.create_restricted_globals !! "test_input" = None.
Proof. by vm_compute. Qed.

(** X16. Supplying a test input adds the one key [test_input], bound to that
    text, to the dictionary handed to [exec]; the key is not one of the
    table's, and every other name is bound as it is without a test input. *)
Theorem test_input_is_the_only_added_key (t : string) (name : string) :
  PythonJudge.restricted_globals (Some t) !! "test_input" = Some (PythonJudge.PyStr t)
  /\ PythonJudge.restricted_globals None !! "test_input" = None
  /\ (name <> "test_input" ->
      PythonJudge.restricted_globals (Some t) !! name
      = PythonJudge.restricted_globals None !! name)
  /\ dom (PythonJudge.restricted_globals (Some t))
     = {["test_input"]} ∪ dom (PythonJudge.restricted_globals None).
Proof.
  cbn [PythonJudge.restricted_globals]. split; [apply lookup_insert_eq|].
  split; [apply test_input_not_in_table|]. split.
  - intros Hne. by rewrite lookup_insert_ne.
  - apply dom_insert_L.
Qed.

Lemma test_input_is_the_only_added_key_witness :
  PythonJudge.restricted_globals (Some "data") !! "len"
  = PythonJudge.restricted_globals None !! "len".
Proof.
  apply (proj1 (proj2 (proj2 (test_input_is_the_only_added_key "data" "len")))).
  discriminate.
Defined.

(** ** Further properties of the SQL judge *)

(** X18. Whatever the event and the database, the SQL judge answers with
    status 400, [success] false, exit code 1 and an empty stdout, hands no
    query to [execute_sql_query], and its message is one of three: no
    query, query too large, or the failure of the screen's own pattern. *)
Theorem sql_judge_rejects_every_query (w : SqlJudge.World) (event : SqlJudge.Event) :
  let answer := SqlJudge.lambda_handler w event in
  snd answer = []
  /\ fst answer
       ∈ [ SqlJudge.create_error_response "No SQL query provided";
           SqlJudge.create_error_response "Query too large (max 10KB)";
           SqlJudge.create_error_response
             "Query execution failed: missing ), unterminated subpattern at position 17" ]
  /\ SqlJudge.statusCode (fst answer) = 400%Z
  /\ SqlJudge.b_success (SqlJudge.body (fst answer)) = false
  /\ SqlJudge.b_exitCode (SqlJudge.body (fst answer)) = 1%Z.
Proof.
  cbn zeta. unfold SqlJudge.lambda_handler. rewrite screen_always_raises.
  destruct (negb _); [repeat split; list_in|].
  destruct (_ <? _)%Z; repeat split; by list_in.
Qed.

(** ** Further properties of the capsule validator *)

Lemma bool_eq_of_iff (b1 b2 : bool) : (b1 = true <-> b2 = true) -> b1 = b2.
Proof. destruct b1, b2; intuition congruence. Qed.

(** A value of either result that cannot be hashed makes the comparison
    raise. *)
Lemma is_correct_unhashable {V : Type} `{EqDecision V} `{Capsule.Hashable V}
      (user_result expected_result : list (gmap string V))
      (user_cols expected_cols : list string)
      (row : gmap string V) (k : string) (v : V) (type_name : string) :
  row ∈ user_result ++ expected_result -> row !! k = Some v ->
  Capsule.unhashable v = Some type_name ->
  exists type_name',
    Capsule.is_correct user_result user_cols expected_result expected_cols
    = Py.Raise (Capsule.unhashable_type type_name').
Proof.
  intros Hin Hk Hv. unfold Capsule.is_correct.
  apply elem_of_app in Hin as [Hin|Hin].
  - destruct (row_set_unhashable user_result row k v type_name Hin Hk Hv) as [ty ->].
    by exists ty.
  - destruct (Capsule.row_set user_result) as [keys|e] eqn:Huser.
    + destruct (row_set_unhashable expected_result row k v type_name Hin Hk Hv) as [ty ->].
      by exists ty.
    + clear Hin. revert e Huser.
      induction user_result as [|row' rest IH]; intros e Huser; [done|].
      cbn [Capsule.row_set] in Huser.
      destruct (Capsule.first_unhashable (Capsule.row_key row')) as [ty|];
        [injection Huser as <-; by exists ty|].
      destruct (Capsule.row_set rest) as [keys|e'] eqn:Hrest; [done|].
      injection Huser as <-. by apply (IH e').
Qed.

(** X19. When every value of the two results can be hashed, the comparison
    returns a boolean, is reflexive and symmetric, and does not change when
    the candidate's rows are reordered or when every row is repeated. When
    a value of either result cannot be hashed (a list or a dictionary, as
    the PostgreSQL driver returns for arrays and json), the comparison
    raises [TypeError] instead of returning. *)
Theorem comparison_ignores_order_and_repeats {V : Type} `{EqDecision V} `{Capsule.Hashable V}
        (user_result user_result' expected_result : list (gmap string V))
        (user_cols expected_cols : list string) :
  (Capsule.hashable_rows user_result -> Capsule.hashable_rows expected_result ->
   Capsule.is_correct user_result user_cols user_result user_cols = Py.Ret true
   /\ (exists ok,
         Capsule.is_correct user_result user_cols expected_result expected_cols = Py.Ret ok)
   /\ Capsule.is_correct user_result user_cols expected_result expected_cols
      = Capsule.is_correct expected_result expected_cols user_result user_cols
   /\ (user_result ≡ₚ user_result' ->
       Capsule.is_correct user_result user_cols expected_result expected_cols
       = Capsule.is_correct user_result' user_cols expected_result expected_cols)
   /\ Capsule.is_correct (user_result ++ user_result) user_cols expected_result expected_cols
      = Capsule.is_correct user_result user_cols expected_result expected_cols)
  /\ (forall (row : gmap string V) (k : string) (v : V) (type_name : string),
        row ∈ user_result ++ expected_result -> row !! k = Some v ->
        Capsule.unhashable v = Some type_name ->
        exists type_name',
          Capsule.is_correct user_result user_cols expected_result expected_cols
          = Py.Raise (Capsule.unhashable_type type_name')).
Proof.
  split.
  - intros Hu He.
    destruct (is_correct_spec user_result user_cols user_result user_cols Hu Hu)
      as (ok0 & Hok0 & Hspec0).
    destruct (is_correct_spec user_result user_cols expected_result expected_cols Hu He)
      as (ok1 & Hok1 & Hspec1).
    destruct (is_correct_spec expected_result expected_cols user_result user_cols He Hu)
      as (ok2 & Hok2 & Hspec2).
    split; [|split; [|split; [|split]]].
    + rewrite Hok0. f_equal. by apply Hspec0.
    + by exists ok1.
    + rewrite Hok1, Hok2. f_equal. apply bool_eq_of_iff. rewrite Hspec1, Hspec2.
      split; intros [Hrows ->]; (split; [|done]); intros row; by rewrite Hrows.
    + intros Hperm.
      assert (Capsule.hashable_rows user_result') as Hu'.
      { intros row k v Hin. apply (Hu row k v). by rewrite Hperm. }
      destruct (is_correct_spec user_result' user_cols expected_result expected_cols Hu' He)
        as (ok3 & Hok3 & Hspec3).
      rewrite Hok1, Hok3. f_equal. apply bool_eq_of_iff. rewrite Hspec1, Hspec3.
      split; intros [Hrows ->]; (split; [|done]); intros row.
      * by rewrite <- Hperm.
      * by rewrite Hperm.
    + assert (Capsule.hashable_rows (user_result ++ user_result)) as Huu.
      { intros row k v Hin. apply (Hu row k v). apply elem_of_app in Hin. tauto. }
      destruct (is_correct_spec (user_result ++ user_result) user_cols expected_result
                  expected_cols Huu He) as (ok3 & Hok3 & Hspec3).
      rewrite Hok1, Hok3. f_equal. apply bool_eq_of_iff. rewrite Hspec1, Hspec3.
      split; intros [Hrows ->]; (split; [|done]); intros row.
      * rewrite <- Hrows, elem_of_app. tauto.
      * rewrite elem_of_app, <- Hrows. tauto.
  - intros row k v type_name. apply is_correct_unhashable.
Qed.

Lemma comparison_ignores_order_and_repeats_witness :
  Capsule.is_correct [Examples.a_row 1; Examples.a_row 2] ["a"] [Examples.a_row 1] ["a"]
  = Capsule.is_correct [Examples.a_row 2; Examples.a_row 1] ["a"] [Examples.a_row 1] ["a"]
  /\ exists type_name',
       Capsule.is_correct [Scenarios.tags_row] ["id"; "tags"] [Scenarios.tags_row]
         ["id"; "tags"]
       = Py.Raise (Capsule.unhashable_type type_name').
Proof.
  split.
  - apply (proj1 (comparison_ignores_order_and_repeats
                    [Examples.a_row 1; Examples.a_row 2]
                    [Examples.a_row 2; Examples.a_row 1]
                    [Examples.a_row 1] ["a"] ["a"])
                 (fun _ _ _ _ _ => eq_refl) (fun _ _ _ _ _ => eq_refl)).
    apply Permutation_swap.
  - apply (proj2 (comparison_ignores_order_and_repeats
                    [Scenarios.tags_row] [Scenarios.tags_row] [Scenarios.tags_row]
                    ["id"; "tags"] ["id"; "tags"])
                 Scenarios.tags_row "tags" (Scenarios.PgArray [1%Z; 2%Z]) "list");
      [apply elem_of_app; left; apply list_elem_of_here|by vm_compute|reflexivity].
Defined.

(** X20. The schema statements are sent to the engine in the order given,
    blank ones left out: what was sent is an initial part of the non-blank
    statements, all of them when none failed, and after a failure the
    failing statement is the last one sent. *)
Theorem schema_statements_run_in_order {V : Type} (DB : Type)
        (execute : DB -> string -> DB * @Capsule.Exec V) (db : DB)
        (schema_setup : list string) :
  let '(_, e, sent) := Capsule.run_schema DB execute db schema_setup in
  sent `prefix_of` List.filter Str.strip_nonempty schema_setup
  /\ (e = None -> sent = List.filter Str.strip_nonempty schema_setup)
  /\ (forall msg, e = Some msg ->
      exists before statement db',
        sent = before ++ [statement] /\ snd (execute db' statement) = Capsule.ExecError msg).
Proof.
  revert db. induction schema_setup as [|statement rest IH]; intros db.
  - cbn. repeat split; try done.
  - cbn [Capsule.run_schema List.filter].
    destruct (Str.strip_nonempty statement); [|apply IH].
    destruct (execute db statement) as [db' [msg|descr rows]] eqn:Hexec.
    + split; [by apply prefix_cons, prefix_nil|]. split; [done|].
      intros ? [= <-]. exists [], statement, db. by rewrite Hexec.
    + specialize (IH db').
      destruct (Capsule.run_schema DB execute db' rest) as [[db'' e] sent].
      destruct IH as (Hpre & Hall & Hfail). split; [by apply prefix_cons|].
      split; [intros He; by rewrite Hall|].
      intros msg He. destruct (Hfail msg He) as (before & st & d & -> & Hst).
      exists (statement :: before), st, d. done.
Qed.

Lemma schema_statements_run_in_order_witness :
  snd (Capsule.run_schema (list Z) Examples.toy_sqlite []
         ["CREATE TABLE t (a INTEGER)"; "   "; "INSERT INTO t VALUES (1)"])
  = ["CREATE TABLE t (a INTEGER)"; "INSERT INTO t VALUES (1)"].
Proof.
  pose proof (schema_statements_run_in_order (list Z) Examples.toy_sqlite []
                ["CREATE TABLE t (a INTEGER)"; "   "; "INSERT INTO t VALUES (1)"]) as Hs.
  destruct (Capsule.run_schema (list Z) Examples.toy_sqlite [] _) as [[db e] sent] eqn:Hrun.
  destruct Hs as (_ & Hall & _). cbn [snd]. apply Hall.
  vm_compute in Hrun. congruence.
Defined.

(** X21. Without a candidate query the validation succeeds when the schema
    and the reference query run: the result carries the reference rows and
    columns, no user result and no error, and nothing is sent after the
    reference query (on PostgreSQL, nothing but the closing [ROLLBACK;]). *)
Theorem absent_user_query_returns_reference {V : Type} `{EqDecision V} `{Capsule.Hashable V}
        (schema_setup : list string) (reference_solution : string)
        (expected_cols : list string) (expected_result : list (gmap string V)) :
  (forall (DB : Type) (execute : DB -> string -> DB * Capsule.Exec)
          (memory_db db1 db2 : DB) (sent : list string),
     Capsule.run_schema DB execute memory_db schema_setup = (db1, None, sent) ->
     execute db1 reference_solution
     = (db2, Capsule.ExecDone (Some expected_cols) expected_result) ->
     Capsule.validate_with_sqlite DB execute memory_db schema_setup
       reference_solution EmptyString
     = (Py.Ret (Capsule.mkValidationResult true None (Some expected_result)
                                           (Some expected_cols) None),
        sent ++ [reference_solution]))
  /\ (forall (D : Type) (pg_run : D -> string -> Capsule.PgExec D) (db : D)
             (st1 st2 : Capsule.Session D) (sent : list string),
        Capsule.pg_schema D pg_run (Capsule.mkSession D db db) schema_setup
        = (st1, None, sent) ->
        Capsule.pg_execute D pg_run st1 reference_solution
        = (st2, Capsule.ExecDone (Some expected_cols) expected_result) ->
        Capsule.validate_with_postgres D pg_run None db schema_setup
          reference_solution EmptyString
        = Capsule.mkPgOutcome D
            (Py.Ret (Capsule.mkValidationResult true None (Some expected_result)
                                                (Some expected_cols) None))
            (Capsule.committed D st2)
            ("BEGIN;" :: sent ++ [reference_solution] ++ ["ROLLBACK;"])).
Proof.
  split.
  - intros DB execute memory_db db1 db2 sent Hschema Href.
    unfold Capsule.validate_with_sqlite. by rewrite Hschema, Href.
  - intros D pg_run db st1 st2 sent Hschema Href.
    unfold Capsule.validate_with_postgres.
    rewrite pg_begin, Hschema, Href. cbn [nonempty]. rewrite pg_rollback.
    cbn. by rewrite <- app_assoc.
Qed.

Lemma absent_user_query_returns_reference_witness :
  Capsule.validate_with_sqlite (list Z) Examples.toy_sqlite [] Examples.toy_schema
    "SELECT a FROM t" EmptyString
  = (Py.Ret (Capsule.mkValidationResult true None (Some [Examples.a_row 1]) (Some ["a"]) None),
     Examples.toy_schema ++ ["SELECT a FROM t"]).
Proof.
  apply (proj1 (absent_user_query_returns_reference Examples.toy_schema "SELECT a FROM t"
                  ["a"] [Examples.a_row 1])
               (list Z) Examples.toy_sqlite [] [1%Z] [1%Z]); reflexivity.
Defined.

(** X22. A statement that runs but returns no result set is treated
    differently by the two backends. On SQLite a reference or candidate
    query of that kind makes [validate_with_sqlite] raise a [TypeError]
    instead of returning a result; on PostgreSQL it is reported as the error
    [no results to fetch], for the candidate with the reference result
    attached and after the closing [ROLLBACK;]. *)
Theorem statement_without_result_set {V : Type} `{EqDecision V} `{Capsule.Hashable V}
        (schema_setup : list string) (reference_solution user_query : string) :
  (forall (DB : Type) (execute : DB -> string -> DB * Capsule.Exec)
          (memory_db db1 db2 : DB) (sent : list string) (rows : list (gmap string V)),
     Capsule.run_schema DB execute memory_db schema_setup = (db1, None, sent) ->
     execute db1 reference_solution = (db2, Capsule.ExecDone None rows) ->
     fst (Capsule.validate_with_sqlite DB execute memory_db schema_setup
            reference_solution user_query)
     = Py.Raise Capsule.none_not_iterable)
  /\ (forall (DB : Type) (execute : DB -> string -> DB * Capsule.Exec)
             (memory_db db1 db2 db3 : DB) (sent : list string) (cols : list string)
             (expected rows : list (gmap string V)),
        Capsule.run_schema DB execute memory_db schema_setup = (db1, None, sent) ->
        execute db1 reference_solution = (db2, Capsule.ExecDone (Some cols) expected) ->
        nonempty user_query = true ->
        execute db2 user_query = (db3, Capsule.ExecDone None rows) ->
        fst (Capsule.validate_with_sqlite DB execute memory_db schema_setup
               reference_solution user_query)
        = Py.Raise Capsule.none_not_iterable)
  /\ (forall (D : Type) (pg_run : D -> string -> Capsule.PgExec D) (db : D)
             (st1 st2 st3 : Capsule.Session D) (sent : list string) (cols : list string)
             (expected rows : list (gmap string V)),
        Capsule.pg_schema D pg_run (Capsule.mkSession D db db) schema_setup
        = (st1, None, sent) ->
        Capsule.pg_execute D pg_run st1 reference_solution
        = (st2, Capsule.ExecDone (Some cols) expected) ->
        nonempty user_query = true ->
        Capsule.pg_execute D pg_run st2 user_query = (st3, Capsule.ExecDone None rows) ->
        Capsule.pg_returned D
          (Capsule.validate_with_postgres D pg_run None db schema_setup
             reference_solution user_query)
        = Py.Ret (Capsule.mkValidationResult false None (Some expected) (Some cols)
                    (Some "SQL Error: no results to fetch"))
        /\ last (Capsule.pg_sent D
                   (Capsule.validate_with_postgres D pg_run None db schema_setup
                      reference_solution user_query)) = Some "ROLLBACK;").
Proof.
  split; [|split].
  - intros DB execute memory_db db1 db2 sent rows Hschema Href.
    unfold Capsule.validate_with_sqlite. by rewrite Hschema, Href.
  - intros DB execute memory_db db1 db2 db3 sent cols expected rows Hschema Href Huq Huser.
    unfold Capsule.validate_with_sqlite. by rewrite Hschema, Href, Huq, Huser.
  - intros D pg_run db st1 st2 st3 sent cols expected rows Hschema Href Huq Huser.
    unfold Capsule.validate_with_postgres.
    rewrite pg_begin, Hschema, Href, Huq, Huser, pg_rollback.
    cbn [Capsule.pg_returned Capsule.pg_sent]. split; [done|].
    rewrite app_comm_cons, !app_assoc. apply last_snoc.
Qed.

Lemma statement_without_result_set_witness :
  fst (Capsule.validate_with_sqlite (list Z) Examples.toy_sqlite [] Examples.toy_schema
         "INSERT INTO t VALUES (1)" "SELECT a FROM t")
  = Py.Raise Capsule.none_not_iterable.
Proof.
  apply (proj1 (statement_without_result_set Examples.toy_schema
                  "INSERT INTO t VALUES (1)" "SELECT a FROM t")
               (list Z) Examples.toy_sqlite [] [1%Z] [1%Z; 1%Z] Examples.toy_schema []);
    reflexivity.
Defined.

(** X25. On the PostgreSQL backend, when the candidate query has run and a
    value of its result or of the reference's cannot be hashed (an array or
    a json value), [validate_with_postgres] returns no result: the
    comparison raises [TypeError], which is not a [psycopg2.Error], so the
    [ROLLBACK;] is not sent; the candidate query is the last statement
    sent, and the open transaction is only dropped when the connection is
    closed. *)
Theorem unhashable_value_skips_the_rollback {V : Type} `{EqDecision V} `{Capsule.Hashable V}
        (schema_setup : list string) (reference_solution user_query : string)
        (expected_cols user_cols : list string)
        (expected_result user_result : list (gmap string V))
        (row : gmap string V) (k : string) (v : V) (type_name : string)
        (D : Type) (pg_run : D -> string -> Capsule.PgExec D) (db : D)
        (st1 st2 st3 : Capsule.Session D) (sent : list string) :
  nonempty user_query = true ->
  row ∈ user_result ++ expected_result -> row !! k = Some v ->
  Capsule.unhashable v = Some type_name ->
  Capsule.pg_schema D pg_run (Capsule.mkSession D db db) schema_setup = (st1, None, sent) ->
  Capsule.pg_execute D pg_run st1 reference_solution
  = (st2, Capsule.ExecDone (Some expected_cols) expected_result) ->
  Capsule.pg_execute D pg_run st2 user_query
  = (st3, Capsule.ExecDone (Some user_cols) user_result) ->
  let outcome := Capsule.validate_with_postgres D pg_run None db schema_setup
                   reference_solution user_query in
  (exists type_name',
     Capsule.pg_returned D outcome = Py.Raise (Capsule.unhashable_type type_name'))
  /\ Capsule.pg_sent D outcome = "BEGIN;" :: sent ++ [reference_solution; user_query]
  /\ last (Capsule.pg_sent D outcome) = Some user_query
  /\ Capsule.pg_database D outcome = Capsule.committed D st3.
Proof.
  intros Huq Hin Hk Hv Hschema Href Huser outcome. subst outcome.
  destruct (is_correct_unhashable user_result expected_result user_cols expected_cols
              row k v type_name Hin Hk Hv) as [ty Hraise].
  unfold Capsule.validate_with_postgres.
  rewrite pg_begin, Hschema, Href, Huq, Huser. unfold Capsule.compared. rewrite Hraise.
  cbn [Capsule.pg_returned Capsule.pg_sent Capsule.pg_database].
  assert (("BEGIN;" :: sent ++ [reference_solution]) ++ [user_query]
          = "BEGIN;" :: sent ++ [reference_solution; user_query]) as ->
    by (cbn [app]; by rewrite <- app_assoc).
  split; [by exists ty|]. split; [done|]. split; [|done].
  rewrite app_comm_cons.
  change [reference_solution; user_query] with ([reference_solution] ++ [user_query]).
  rewrite app_assoc. apply last_snoc.
Qed.

Lemma unhashable_value_skips_the_rollback_witness :
  let outcome := Capsule.validate_with_postgres unit Scenarios.array_postgres None tt []
                   "SELECT id, tags FROM t" "SELECT id, tags FROM t" in
  (exists type_name',
     Capsule.pg_returned unit outcome = Py.Raise (Capsule.unhashable_type type_name'))
  /\ Capsule.pg_sent unit outcome
     = ["BEGIN;"; "SELECT id, tags FROM t"; "SELECT id, tags FROM t"]
  /\ last (Capsule.pg_sent unit outcome) = Some "SELECT id, tags FROM t"
  /\ Capsule.pg_database unit outcome = tt.
Proof.
  apply (unhashable_value_skips_the_rollback [] "SELECT id, tags FROM t"
           "SELECT id, tags FROM t" ["id"; "tags"] ["id"; "tags"]
           [Scenarios.tags_row] [Scenarios.tags_row]
           Scenarios.tags_row "tags" (Scenarios.PgArray [1%Z; 2%Z]) "list"
           unit Scenarios.array_postgres tt
           (Capsule.mkSession unit tt tt) (Capsule.mkSession unit tt tt)
           (Capsule.mkSession unit tt tt) []);
    [reflexivity|apply elem_of_app; left; apply list_elem_of_here|by vm_compute
    |reflexivity|reflexivity|reflexivity|reflexivity].
Defined.

(** X24. In the C# handler a build that is still running after 15 seconds
    ends the call with 400 and [Compilation timeout (15 seconds exceeded)],
    and a tool chain that cannot be started with [Execution error: ...]; in
    both cases stdout is empty and the program is not run. *)
Theorem csharp_build_timeout_and_missing_toolchain (w : CSharp.World) (req : Request) :
  Str.strip_nonempty (req_code req) = true ->
  CSharp.makedirs_workspace w = None ->
  CSharp.write_project w (CSharp.wrapped_code (req_code req)) = None ->
  (forall o e,
     Proc.run_outcome
       (Proc.subprocess_run (CSharp.dotnet_build w (CSharp.wrapped_code (req_code req))) 15)
     = Proc.TimeoutExpired o e ->
     CSharp.lambda_handler w req
     = (create_response false EmptyString "Compilation timeout (15 seconds exceeded)" 400,
        [CSharp.rm_cmd; CSharp.build_cmd]))
  /\ (forall msg,
        CSharp.dotnet_build w (CSharp.wrapped_code (req_code req)) = Proc.LaunchFail msg ->
        CSharp.lambda_handler w req
        = (create_response false EmptyString ("Execution error: " +:+ msg) 400,
           [CSharp.rm_cmd; CSharp.build_cmd])).
Proof.
  intros Hcode Hmk Hwr. unfold CSharp.lambda_handler, CSharp.execute_csharp_code.
  rewrite Hcode, Hmk, Hwr. cbn [negb]. split.
  - intros o e ->. reflexivity.
  - intros msg ->. reflexivity.
Qed.

Lemma csharp_build_timeout_and_missing_toolchain_witness :
  CSharp.lambda_handler
    (CSharp.mkWorld None (fun _ => None) (fun _ => Proc.Launched 7 Examples.runaway)
                    (fun _ _ => Proc.Launched 8 Examples.hello))
    Examples.csharp_request
  = (create_response false EmptyString "Compilation timeout (15 seconds exceeded)" 400,
     [CSharp.rm_cmd; CSharp.build_cmd]).
Proof.
  apply (proj1 (csharp_build_timeout_and_missing_toolchain
                  (CSharp.mkWorld None (fun _ => None) (fun _ => Proc.Launched 7 Examples.runaway)
                                  (fun _ _ => Proc.Launched 8 Examples.hello))
                  Examples.csharp_request eq_refl eq_refl eq_refl) "partial" EmptyString).
  reflexivity.
Defined.
